(** * libstatistics_collector: online statistics, collector lifecycle,
      topic adapters and message projection

    A shallow embedding of the C++ sources

    - [moving_average_statistics/moving_average.{hpp,cpp}], [types.hpp]
    - [collector/collector.{hpp,cpp}], [collector/generate_statistics_message.cpp]
    - [topic_statistics_collector/received_message_period.hpp]

    Member functions become state transformers over a record holding the
    members of the class.  The C++ [double] is kept abstract behind the
    class [Scalar], whose instance is IEEE-754 binary64 ([SpecFloat]):
    the arithmetic the compiled code runs on, with its rounding,
    overflow, infinities and NaN.  Mutexes are not modelled: every method
    is taken as one atomic step. *)

From Stdlib Require Import ZArith List Bool String Lia.
From Stdlib Require Import Reals Lra.
From Stdlib Require Import SpecFloat.
Import ListNotations.

Set Implicit Arguments.

(* ================================================================= *)
(** ** A small state monad for member functions *)

Module Method.

Definition t (S A : Type) : Type := S -> A * S.

Definition ret {S A} (a : A) : t S A := fun s => (a, s).
Definition bind {S A B} (m : t S A) (k : A -> t S B) : t S B :=
  fun s => let (a, s') := m s in k a s'.
Definition get {S} : t S S := fun s => (s, s).
Definition gets {S A} (f : S -> A) : t S A := fun s => (f s, s).
Definition modify {S} (f : S -> S) : t S unit := fun s => (tt, f s).

(** result and final state of a call *)
Definition result {S A} (m : t S A) (s : S) : A := fst (m s).
Definition exec {S A} (m : t S A) (s : S) : S := snd (m s).

End Method.

Declare Scope method_scope.
Delimit Scope method_scope with method.
Notation "x <- m ;; k" := (Method.bind m (fun x => k))
  (at level 61, m at next level, right associativity) : method_scope.
Notation "m ;; k" := (Method.bind m (fun _ => k))
  (at level 61, right associativity) : method_scope.

(* ================================================================= *)
(** ** Machine integers *)

(** [uint64_t]: a [Z] in [0, 2^64); [++] wraps. *)
Definition UINT64_MODULUS : Z := 2 ^ 64.
Definition uint64_incr (n : Z) : Z := (n + 1) mod UINT64_MODULUS.
Definition is_uint64 (n : Z) : Prop := (0 <= n < UINT64_MODULUS)%Z.

(** [int64_t] (the representation of [rcl_time_point_value_t] and of
    [std::chrono::nanoseconds]).  Signed overflow is undefined behaviour
    in C++, so subtraction is partial. *)
Definition INT64_MIN : Z := - 2 ^ 63.
Definition INT64_MAX : Z := 2 ^ 63 - 1.
Definition in_int64 (z : Z) : bool := ((INT64_MIN <=? z) && (z <=? INT64_MAX))%Z.
Definition int64_sub (a b : Z) : option Z :=
  if in_int64 (a - b) then Some (a - b)%Z else None.

(* ================================================================= *)
(** ** The scalar type [double] *)

(** Operations of [double] that the sources use.  [of_integer] is the
    implicit/explicit conversion from an integer type ([uint64_t] in
    [average_ + ... / count_] and [static_cast<double>(sample_count)],
    [int64_t] inside [std::chrono::duration<double, std::milli>]). *)
Class Scalar (F : Type) : Type := {
  literal_zero : F;                      (* [0] *)
  numeric_limits_max : F;                (* [std::numeric_limits<double>::max()] *)
  numeric_limits_min : F;                (* [std::numeric_limits<double>::min()] *)
  nan : F;                               (* [std::nan("")] *)
  isnan : F -> bool;                     (* [std::isnan] *)
  fadd : F -> F -> F;
  fsub : F -> F -> F;
  fmul : F -> F -> F;
  fdiv : F -> F -> F;
  fsqrt : F -> F;                        (* [std::sqrt] *)
  flt : F -> F -> bool;                  (* [operator<] *)
  of_integer : Z -> F;
  isnan_nan : isnan nan = true
}.

Declare Scope scalar_scope.
Delimit Scope scalar_scope with scalar.
Infix "+" := fadd : scalar_scope.
Infix "-" := fsub : scalar_scope.
Infix "*" := fmul : scalar_scope.
Infix "/" := fdiv : scalar_scope.
Infix "<?" := flt : scalar_scope.

(** [std::min(a, b)] is [(b < a) ? b : a]; [std::max(a, b)] is
    [(a < b) ? b : a] (<algorithm>). *)
Definition std_min {F} `{Scalar F} (a b : F) : F := if (b <? a)%scalar then b else a.
Definition std_max {F} `{Scalar F} (a b : F) : F := if (a <? b)%scalar then b else a.

(* ----------------------------------------------------------------- *)
(** *** IEEE-754 binary64 *)

Module binary64.

Definition prec : Z := 53.
Definition emax : Z := 1024.

Definition double : Type := spec_float.

Definition is_nan (x : double) : bool :=
  match x with S754_nan => true | _ => false end.

(** round-to-nearest-even conversion of an integer *)
Definition of_Z (z : Z) : double := binary_normalize prec emax z 0 false.

(** [DBL_MAX = (2^53 - 1) * 2^971] *)
Definition DBL_MAX : double := S754_finite false (2 ^ 53 - 1) 971.
(** [DBL_MIN = 2^-1022], the smallest positive normal number *)
Definition DBL_MIN : double := S754_finite false (2 ^ 52) (-1074).

#[global] Instance Scalar_double : Scalar double := {|
  literal_zero := S754_zero false;
  numeric_limits_max := DBL_MAX;
  numeric_limits_min := DBL_MIN;
  nan := S754_nan;
  isnan := is_nan;
  fadd := SFadd prec emax;
  fsub := SFsub prec emax;
  fmul := SFmul prec emax;
  fdiv := SFdiv prec emax;
  fsqrt := SFsqrt prec emax;
  flt := SFltb;
  of_integer := of_Z;
  isnan_nan := eq_refl
|}.

End binary64.

(* ================================================================= *)
(** ** moving_average_statistics *)

Module moving_average_statistics.

Section WithScalar.
Context {F : Type} `{Scalar F}.
Local Open Scope scalar_scope.
Local Open Scope method_scope.

(** [struct StatisticData] (types.hpp), with its default member
    initialisers. *)
Record StatisticData : Type := {
  average : F;
  min : F;
  max : F;
  standard_deviation : F;
  sample_count : Z
}.

Definition StatisticData_default : StatisticData := {|
  average := nan;
  min := nan;
  max := nan;
  standard_deviation := nan;
  sample_count := 0
|}.

Definition set_average (v : F) (r : StatisticData) :=
  {| average := v; min := min r; max := max r;
     standard_deviation := standard_deviation r; sample_count := sample_count r |}.
Definition set_min (v : F) (r : StatisticData) :=
  {| average := average r; min := v; max := max r;
     standard_deviation := standard_deviation r; sample_count := sample_count r |}.
Definition set_max (v : F) (r : StatisticData) :=
  {| average := average r; min := min r; max := v;
     standard_deviation := standard_deviation r; sample_count := sample_count r |}.
Definition set_standard_deviation (v : F) (r : StatisticData) :=
  {| average := average r; min := min r; max := max r;
     standard_deviation := v; sample_count := sample_count r |}.
Definition set_sample_count (v : Z) (r : StatisticData) :=
  {| average := average r; min := min r; max := max r;
     standard_deviation := standard_deviation r; sample_count := v |}.

(** Data members of [class MovingAverageStatistics]. *)
Record MovingAverageStatistics : Type := {
  average_ : F;
  min_ : F;
  max_ : F;
  sum_of_square_diff_from_mean_ : F;
  count_ : Z
}.

(** Default member initialisers (moving_average.hpp). *)
Definition MovingAverageStatistics_default : MovingAverageStatistics := {|
  average_ := literal_zero;
  min_ := numeric_limits_max;
  max_ := numeric_limits_min;
  sum_of_square_diff_from_mean_ := literal_zero;
  count_ := 0
|}.

(** Assignments to single members. *)
Definition set_average_ (v : F) (this : MovingAverageStatistics) :=
  {| average_ := v; min_ := min_ this; max_ := max_ this;
     sum_of_square_diff_from_mean_ := sum_of_square_diff_from_mean_ this;
     count_ := count_ this |}.
Definition set_min_ (v : F) (this : MovingAverageStatistics) :=
  {| average_ := average_ this; min_ := v; max_ := max_ this;
     sum_of_square_diff_from_mean_ := sum_of_square_diff_from_mean_ this;
     count_ := count_ this |}.
Definition set_max_ (v : F) (this : MovingAverageStatistics) :=
  {| average_ := average_ this; min_ := min_ this; max_ := v;
     sum_of_square_diff_from_mean_ := sum_of_square_diff_from_mean_ this;
     count_ := count_ this |}.
Definition set_sum_of_square_diff_from_mean_ (v : F) (this : MovingAverageStatistics) :=
  {| average_ := average_ this; min_ := min_ this; max_ := max_ this;
     sum_of_square_diff_from_mean_ := v;
     count_ := count_ this |}.
Definition set_count_ (v : Z) (this : MovingAverageStatistics) :=
  {| average_ := average_ this; min_ := min_ this; max_ := max_ this;
     sum_of_square_diff_from_mean_ := sum_of_square_diff_from_mean_ this;
     count_ := v |}.

Definition method (A : Type) : Type := Method.t MovingAverageStatistics A.

(** [StatisticData MovingAverageStatistics::GetStatistics() const] *)
Definition GetStatistics : method StatisticData :=
  this <- Method.get ;;
  let to_return := StatisticData_default in
  if (count_ this =? 0)%Z then
    Method.ret to_return
  else
    let to_return := set_sample_count (count_ this) to_return in
    let to_return := set_average (average_ this) to_return in
    let to_return := set_min (min_ this) to_return in
    let to_return := set_max (max_ this) to_return in
    let to_return :=
      set_standard_deviation
        (fsqrt (sum_of_square_diff_from_mean_ this / of_integer (count_ this)))
        to_return in
    Method.ret to_return.

(** [double Average() const] and its siblings *)
Definition Average : method F := r <- GetStatistics ;; Method.ret (average r).
Definition Max : method F := r <- GetStatistics ;; Method.ret (max r).
Definition Min : method F := r <- GetStatistics ;; Method.ret (min r).
Definition StandardDeviation : method F :=
  r <- GetStatistics ;; Method.ret (standard_deviation r).

(** [void MovingAverageStatistics::Reset()] *)
Definition Reset : method unit :=
  Method.modify (set_average_ literal_zero) ;;
  Method.modify (set_min_ numeric_limits_max) ;;
  Method.modify (set_max_ numeric_limits_min) ;;
  Method.modify (set_sum_of_square_diff_from_mean_ literal_zero) ;;
  Method.modify (set_count_ 0).

(** [void MovingAverageStatistics::AddMeasurement(const double item)] *)
Definition AddMeasurement (item : F) : method unit :=
  if negb (isnan item) then
    Method.modify (fun this => set_count_ (uint64_incr (count_ this)) this) ;;
    previous_average <- Method.gets average_ ;;
    Method.modify (fun this =>
      set_average_
        (previous_average + (item - previous_average) / of_integer (count_ this))
        this) ;;
    Method.modify (fun this => set_min_ (std_min (min_ this) item) this) ;;
    Method.modify (fun this => set_max_ (std_max (max_ this) item) this) ;;
    Method.modify (fun this =>
      set_sum_of_square_diff_from_mean_
        (sum_of_square_diff_from_mean_ this
         + (item - previous_average) * (item - average_ this))
        this)
  else
    Method.ret tt.

(** [uint64_t MovingAverageStatistics::GetCount() const] *)
Definition GetCount : method Z := Method.gets count_.

(** Feeding a sequence of observations, one [AddMeasurement] each. *)
Definition AddMeasurements (items : list F) (this : MovingAverageStatistics)
  : MovingAverageStatistics :=
  fold_left (fun s item => Method.exec (AddMeasurement item) s) items this.

End WithScalar.

Arguments StatisticData F : clear implicits.
Arguments MovingAverageStatistics F : clear implicits.

End moving_average_statistics.

(* ================================================================= *)
(** ** collector *)

Module collector.

Import moving_average_statistics.

Section WithScalar.
Context {F : Type} `{Scalar F}.
Local Open Scope method_scope.

(** Data members of [class Collector], followed by the members [D] that
    a derived class adds.  ([mutex_] is not modelled.) *)
Record Collector (D : Type) : Type := {
  collected_data_ : MovingAverageStatistics F;
  started_ : bool;
  derived_ : D
}.

Definition set_collected_data_ {D} (v : MovingAverageStatistics F) (this : Collector D) :=
  {| collected_data_ := v; started_ := started_ this; derived_ := derived_ this |}.
Definition set_started_ {D} (v : bool) (this : Collector D) :=
  {| collected_data_ := collected_data_ this; started_ := v; derived_ := derived_ this |}.
Definition set_derived_ {D} (v : D) (this : Collector D) :=
  {| collected_data_ := collected_data_ this; started_ := started_ this; derived_ := v |}.

(** The pure virtual hooks [SetupStart] and [SetupStop].  [started_],
    [collected_data_] and [mutex_] are private to [Collector]: an
    override can change its own members and, through the public methods
    [AcceptData] and [ClearCurrentMeasurements], the collected data, but
    never [started_]. *)
Class Hooks (D : Type) : Type := {
  SetupStart : Method.t (MovingAverageStatistics F * D) bool;
  SetupStop : Method.t (MovingAverageStatistics F * D) bool
}.

(** Running a hook on [this]. *)
Definition call_hook {D} (hook : Method.t (MovingAverageStatistics F * D) bool)
  : Method.t (Collector D) bool :=
  fun this =>
    let '(r, (data, d)) := hook (collected_data_ this, derived_ this) in
    (r, {| collected_data_ := data; started_ := started_ this; derived_ := d |}).

(** Running a method of the member [collected_data_]. *)
Definition on_collected_data {D A} (m : Method.t (MovingAverageStatistics F) A)
  : Method.t (Collector D) A :=
  fun this =>
    let (a, data) := m (collected_data_ this) in (a, set_collected_data_ data this).

Section WithHooks.
Context {D : Type} `{Hooks D}.

Definition method (A : Type) : Type := Method.t (Collector D) A.

(** [void Collector::AcceptData(const double measurement)] *)
Definition AcceptData (measurement : F) : method unit :=
  on_collected_data (AddMeasurement measurement).

(** [StatisticData Collector::GetStatisticsResults() const] *)
Definition GetStatisticsResults : method (StatisticData F) :=
  on_collected_data GetStatistics.

(** [void Collector::ClearCurrentMeasurements()] *)
Definition ClearCurrentMeasurements : method unit :=
  on_collected_data Reset.

(** [bool Collector::IsStarted() const] *)
Definition IsStarted : method bool := Method.gets (@started_ D).

(** [bool Collector::Start()] *)
Definition Start : method bool :=
  started <- Method.gets (@started_ D) ;;
  if started then
    Method.ret false
  else
    Method.modify (set_started_ true) ;;
    call_hook SetupStart.

(** [bool Collector::Stop()] *)
Definition Stop : method bool :=
  let ret := false in
  started <- Method.gets (@started_ D) ;;
  if negb started then
    Method.ret false
  else
    Method.modify (set_started_ false) ;;
    ret <- call_hook SetupStop ;;
    ClearCurrentMeasurements ;;
    Method.ret ret.

End WithHooks.
End WithScalar.

Arguments Collector F D : clear implicits.
Arguments Hooks F D : clear implicits.

End collector.

(* ================================================================= *)
(** ** collector/generate_statistics_message *)

Module generate_statistics_message.

Import moving_average_statistics.

(** Modelled from the spec: the message types of the packages
    [statistics_msgs] and [builtin_interfaces], which are not part of
    this repository's sources.  Section 6 gives the record (three
    strings, two timestamps, an ordered sequence of tagged data points)
    and the enumeration of the tags; a value-initialised data point is
    tagged [STATISTICS_DATA_TYPE_UNINITIALIZED] and carries [0]. *)
Inductive StatisticDataType : Type :=
  | STATISTICS_DATA_TYPE_UNINITIALIZED
  | STATISTICS_DATA_TYPE_AVERAGE
  | STATISTICS_DATA_TYPE_MINIMUM
  | STATISTICS_DATA_TYPE_MAXIMUM
  | STATISTICS_DATA_TYPE_STDDEV
  | STATISTICS_DATA_TYPE_SAMPLE_COUNT.

(** [builtin_interfaces::msg::Time] *)
Record Time : Type := { sec : Z; nanosec : Z }.

Section WithScalar.
Context {F : Type} `{Scalar F}.
Local Open Scope method_scope.

Record StatisticDataPoint : Type := {
  data_type : StatisticDataType;
  data : F
}.

Definition StatisticDataPoint_default : StatisticDataPoint :=
  {| data_type := STATISTICS_DATA_TYPE_UNINITIALIZED; data := literal_zero |}.

Definition set_data_type (v : StatisticDataType) (p : StatisticDataPoint) :=
  {| data_type := v; data := data p |}.
Definition set_data (v : F) (p : StatisticDataPoint) :=
  {| data_type := data_type p; data := v |}.

Record MetricsMessage : Type := {
  measurement_source_name : string;
  metrics_source : string;
  unit_ : string;
  window_start : Time;
  window_stop : Time;
  statistics : list StatisticDataPoint
}.

Definition MetricsMessage_default : MetricsMessage := {|
  measurement_source_name := EmptyString;
  metrics_source := EmptyString;
  unit_ := EmptyString;
  window_start := {| sec := 0; nanosec := 0 |};
  window_stop := {| sec := 0; nanosec := 0 |};
  statistics := []
|}.

Definition set_measurement_source_name (v : string) (msg : MetricsMessage) :=
  {| measurement_source_name := v; metrics_source := metrics_source msg;
     unit_ := unit_ msg; window_start := window_start msg;
     window_stop := window_stop msg; statistics := statistics msg |}.
Definition set_metrics_source (v : string) (msg : MetricsMessage) :=
  {| measurement_source_name := measurement_source_name msg; metrics_source := v;
     unit_ := unit_ msg; window_start := window_start msg;
     window_stop := window_stop msg; statistics := statistics msg |}.
Definition set_unit (v : string) (msg : MetricsMessage) :=
  {| measurement_source_name := measurement_source_name msg;
     metrics_source := metrics_source msg;
     unit_ := v; window_start := window_start msg;
     window_stop := window_stop msg; statistics := statistics msg |}.
Definition set_window_start (v : Time) (msg : MetricsMessage) :=
  {| measurement_source_name := measurement_source_name msg;
     metrics_source := metrics_source msg;
     unit_ := unit_ msg; window_start := v;
     window_stop := window_stop msg; statistics := statistics msg |}.
Definition set_window_stop (v : Time) (msg : MetricsMessage) :=
  {| measurement_source_name := measurement_source_name msg;
     metrics_source := metrics_source msg;
     unit_ := unit_ msg; window_start := window_start msg;
     window_stop := v; statistics := statistics msg |}.
Definition set_statistics (v : list StatisticDataPoint) (msg : MetricsMessage) :=
  {| measurement_source_name := measurement_source_name msg;
     metrics_source := metrics_source msg;
     unit_ := unit_ msg; window_start := window_start msg;
     window_stop := window_stop msg; statistics := v |}.

(** [std::vector]: [emplace_back()] appends a value-initialised element,
    [back()] designates the last element ([reserve] changes capacity
    only). *)
Definition emplace_back (v : list StatisticDataPoint) : list StatisticDataPoint :=
  v ++ [StatisticDataPoint_default].
Definition assign_back (f : StatisticDataPoint -> StatisticDataPoint)
  (v : list StatisticDataPoint) : list StatisticDataPoint :=
  match v with
  | [] => []
  | _ :: _ => removelast v ++ [f (last v StatisticDataPoint_default)]
  end.

Definition statistics_emplace_back : Method.t MetricsMessage unit :=
  Method.modify (fun msg => set_statistics (emplace_back (statistics msg)) msg).
Definition statistics_back (f : StatisticDataPoint -> StatisticDataPoint)
  : Method.t MetricsMessage unit :=
  Method.modify (fun msg => set_statistics (assign_back f (statistics msg)) msg).

(** [MetricsMessage GenerateStatisticMessage(node_name, metric_name, unit,
      window_start, window_stop, data)] *)
Definition GenerateStatisticMessage
  (node_name metric_name unit : string) (window_start window_stop : Time)
  (data : StatisticData F) : MetricsMessage :=
  Method.exec (
    Method.modify (set_measurement_source_name node_name) ;;
    Method.modify (set_metrics_source metric_name) ;;
    Method.modify (set_unit unit) ;;

    Method.modify (set_window_start window_start) ;;
    Method.modify (set_window_stop window_stop) ;;

    statistics_emplace_back ;;
    statistics_back (set_data_type STATISTICS_DATA_TYPE_AVERAGE) ;;
    statistics_back (set_data (average data)) ;;

    statistics_emplace_back ;;
    statistics_back (set_data_type STATISTICS_DATA_TYPE_MAXIMUM) ;;
    statistics_back (set_data (max data)) ;;

    statistics_emplace_back ;;
    statistics_back (set_data_type STATISTICS_DATA_TYPE_MINIMUM) ;;
    statistics_back (set_data (min data)) ;;

    statistics_emplace_back ;;
    statistics_back (set_data_type STATISTICS_DATA_TYPE_SAMPLE_COUNT) ;;
    statistics_back (set_data (of_integer (sample_count data))) ;;

    statistics_emplace_back ;;
    statistics_back (set_data_type STATISTICS_DATA_TYPE_STDDEV) ;;
    statistics_back (set_data (standard_deviation data))
  ) MetricsMessage_default.

End WithScalar.

Arguments StatisticDataPoint F : clear implicits.
Arguments MetricsMessage F : clear implicits.

End generate_statistics_message.

(* ================================================================= *)
(** ** topic_statistics_collector/received_message_period *)

Module topic_statistics_collector.

Import moving_average_statistics collector.

(** [constexpr const int64_t kUninitializedTime{0}] *)
Definition kUninitializedTime : Z := 0.

(** constants.hpp *)
Definition kMsgPeriodStatName : string := "message_period".
Definition kMillisecondUnitName : string := "ms".

Section WithScalar.
Context {F : Type} `{Scalar F}.
Local Open Scope method_scope.
Local Open Scope Z_scope.

(** [std::chrono::duration<double, std::milli>(nanos).count()]: the
    conversion from a [std::nano] period divides the tick count,
    converted to [double], by [1000000] ([time.duration.cast]). *)
Definition duration_milli_count (nanos : Z) : F :=
  (of_integer nanos / of_integer 1000000)%scalar.

(** Data member added by [ReceivedMessagePeriodCollector<T>]. *)
Record PeriodMembers : Type := {
  time_last_message_received_ : Z
}.

Definition ReceivedMessagePeriodCollector : Type := Collector F PeriodMembers.

Definition set_time_last_message_received_ (v : Z)
  (this : ReceivedMessagePeriodCollector) : ReceivedMessagePeriodCollector :=
  set_derived_ {| time_last_message_received_ := v |} this.

(** [void ResetTimeLastMessageReceived()] *)
Definition ResetTimeLastMessageReceived (d : PeriodMembers) : PeriodMembers :=
  {| time_last_message_received_ := kUninitializedTime |}.

(** [bool SetupStart() override] and [bool SetupStop() override] *)
#[local] Instance PeriodHooks : Hooks F PeriodMembers := {|
  SetupStart :=
    Method.modify (fun '(data, d) => (data, ResetTimeLastMessageReceived d)) ;;
    Method.ret true;
  SetupStop := Method.ret true
|}.

(** The constructor: default members, then
    [ResetTimeLastMessageReceived()]. *)
Definition ReceivedMessagePeriodCollector_new : ReceivedMessagePeriodCollector := {|
  collected_data_ := MovingAverageStatistics_default;
  started_ := false;
  derived_ := ResetTimeLastMessageReceived {| time_last_message_received_ := kUninitializedTime |}
|}.

(** [void OnMessageReceived(const T & received_message,
      const rcl_time_point_value_t now_nanoseconds)].  [None] stands for
    the undefined behaviour of a signed overflow in
    [now_nanoseconds - time_last_message_received_]. *)
Definition OnMessageReceived {T : Type} (received_message : T) (now_nanoseconds : Z)
  (this : ReceivedMessagePeriodCollector) : option ReceivedMessagePeriodCollector :=
  if time_last_message_received_ (derived_ this) =? kUninitializedTime then
    Some (set_time_last_message_received_ now_nanoseconds this)
  else
    match int64_sub now_nanoseconds (time_last_message_received_ (derived_ this)) with
    | None => None
    | Some nanos =>
        let period := duration_milli_count nanos in
        let this := set_time_last_message_received_ now_nanoseconds this in
        Some (Method.exec (AcceptData period) this)
    end.

(** A sequence of deliveries, in order. *)
Fixpoint OnMessagesReceived {T : Type} (events : list (T * Z))
  (this : ReceivedMessagePeriodCollector) : option ReceivedMessagePeriodCollector :=
  match events with
  | [] => Some this
  | (received_message, now_nanoseconds) :: rest =>
      match OnMessageReceived received_message now_nanoseconds this with
      | None => None
      | Some this' => OnMessagesReceived rest this'
      end
  end.

(** [std::string GetMetricName() const] and [GetMetricUnit() const] *)
Definition GetMetricName : string := kMsgPeriodStatName.
Definition GetMetricUnit : string := kMillisecondUnitName.

End WithScalar.

Arguments PeriodMembers : clear implicits.
Arguments ReceivedMessagePeriodCollector F : clear implicits.
Arguments ReceivedMessagePeriodCollector_new F {_}.
#[global] Existing Instance PeriodHooks.

End topic_statistics_collector.

(* ================================================================= *)
(** ** Reference definitions and test fixtures *)

Import moving_average_statistics collector.

(** A snapshot with no information: every numeric field is NaN and no
    sample was counted. *)
Definition all_nan {F} `{Scalar F} (r : StatisticData F) : Prop :=
  isnan (average r) = true /\ isnan (min r) = true /\ isnan (max r) = true /\
  isnan (standard_deviation r) = true /\ sample_count r = 0%Z.

(** Two-pass textbook statistics of a sequence of reals, after the
    wording of the specification: the arithmetic mean, and the
    population standard deviation [sqrt ((1/n) * sum (x_i - mean)^2)]. *)
Module two_pass.






End two_pass.

(** The real number denoted by a binary64 value; infinities and NaN
    denote none. *)
Definition double_to_R (x : binary64.double) : option R :=
  match x with
  | S754_zero _ => Some 0%R
  | S754_finite s m e => Some (IZR (cond_Zopp s (Zpos m)) * powerRZ 2 e)%R
  | S754_infinity _ => None
  | S754_nan => None
  end.


(** A specialization whose hooks report failure, count their
    invocations, and (on stop) also record a measurement. *)
Module refusing.

#[global] Instance RefusingHooks {F} `{Scalar F} : Hooks F nat := {|
  SetupStart := fun '(data, calls) => (false, (data, S calls));
  SetupStop := fun '(data, calls) =>
    (false, (Method.exec (AddMeasurement (of_integer 7)) data, S calls))
|}.

(** a started collector holding two measurements, and a stopped one *)
Definition started_collector : Collector binary64.double nat := {|
  collected_data_ :=
    AddMeasurements [binary64.of_Z 4; binary64.of_Z 9] MovingAverageStatistics_default;
  started_ := true;
  derived_ := 0%nat
|}.

Definition stopped_collector : Collector binary64.double nat := {|
  collected_data_ := MovingAverageStatistics_default;
  started_ := false;
  derived_ := 0%nat
|}.

End refusing.

(** What the period adapter is expected to feed, after the wording of
    the specification: the first event only sets the baseline, every
    later event at time [now] yields the one period [now - last], fed to
    the aggregator in milliseconds, and [last] becomes [now]. *)
Module period_reference.

Import topic_statistics_collector.

Fixpoint periods_from (last : Z) (times : list Z) : list Z :=
  match times with
  | [] => []
  | now :: rest => (now - last)%Z :: periods_from now rest
  end.

Definition expected_periods (times : list Z) : list Z :=
  match times with
  | [] => []
  | first :: rest => periods_from first rest
  end.

Definition expected_after {F} `{Scalar F} {T : Type} (events : list (T * Z))
  (this : ReceivedMessagePeriodCollector F) : ReceivedMessagePeriodCollector F :=
  let times := map snd events in
  {| collected_data_ :=
       AddMeasurements (map duration_milli_count (expected_periods times))
         (collected_data_ this);
     started_ := started_ this;
     derived_ :=
       {| time_last_message_received_ :=
            last times (time_last_message_received_ (derived_ this)) |} |}.

End period_reference.

(** Period collectors on binary64: freshly constructed, and started. *)
Module period_fixture.

Import topic_statistics_collector.

Definition stopped : ReceivedMessagePeriodCollector binary64.double :=
  ReceivedMessagePeriodCollector_new binary64.double.

Definition started : ReceivedMessagePeriodCollector binary64.double :=
  set_started_ true stopped.

End period_fixture.

(* ================================================================= *)
(** ** topic_statistics_collector/received_message_age *)

Module received_message_age.

Import generate_statistics_message topic_statistics_collector.

(** [int64_t] multiplication and addition; like [int64_sub], undefined on
    overflow. *)
Definition int64_mul (a b : Z) : option Z :=
  if in_int64 (a * b) then Some (a * b)%Z else None.
Definition int64_add (a b : Z) : option Z :=
  if in_int64 (a + b) then Some (a + b)%Z else None.

(** [RCL_S_TO_NS(seconds)] (rcl/time.h):
    [((seconds) * (1000LL * 1000LL * 1000LL))]. *)
Definition RCL_S_TO_NS (seconds : Z) : option Z :=
  int64_mul seconds (1000 * 1000 * 1000).

(** Ranges of the fields of [builtin_interfaces::msg::Time]: [int32 sec],
    [uint32 nanosec]. *)
Definition is_Time (stamp : Time) : Prop :=
  (- 2 ^ 31 <= sec stamp < 2 ^ 31)%Z /\ (0 <= nanosec stamp < 2 ^ 32)%Z.

(** What the templates [HasHeader<M>] and [TimeStamp<M>] find out about a
    message type [M] at compile time: either [M().header.stamp] is a
    [builtin_interfaces::msg::Time] (and [header_stamp] reads it), or
    there is no such field. *)
Class MessageType (M : Type) : Type := {
  header_stamp : option (M -> Time)
}.

(** [HasHeader<M>::value] *)
Definition HasHeader (M : Type) `{MessageType M} : bool :=
  match header_stamp with
  | Some _ => true
  | None => false
  end.
Arguments HasHeader M {_}.

(** [static std::pair<bool, int64_t> TimeStamp<M>::value(const M & m)],
    primary template and specialisation.  [stamp.nanosec] is promoted to
    [int64_t] for the sum. *)
Definition TimeStamp_value {M : Type} `{MessageType M} (m : M) : option (bool * Z) :=
  match header_stamp with
  | None => Some (false, 0%Z)
  | Some read_stamp =>
      let stamp := read_stamp m in
      match RCL_S_TO_NS (sec stamp) with
      | None => None
      | Some seconds_as_nanos =>
          match int64_add seconds_as_nanos (nanosec stamp) with
          | None => None
          | Some nanos => Some (true, nanos)
          end
      end
  end.

Section WithScalar.
Context {F : Type} `{Scalar F} {T : Type} `{MessageType T}.
Local Open Scope Z_scope.

(** [ReceivedMessageAgeCollector<T>] adds no data member. *)
Definition ReceivedMessageAgeCollector : Type := Collector F unit.

(** [bool SetupStart() override { return true; }], and the same for
    [SetupStop]. *)
#[local] Instance AgeHooks : Hooks F unit := {|
  SetupStart := Method.ret true;
  SetupStop := Method.ret true
|}.

(** The defaulted constructor. *)
Definition ReceivedMessageAgeCollector_new : ReceivedMessageAgeCollector := {|
  collected_data_ := MovingAverageStatistics_default;
  started_ := false;
  derived_ := tt
|}.

(** [void OnMessageReceived(const T & received_message,
      const rcl_time_point_value_t now_nanoseconds)].  [None] stands for
    undefined behaviour (a signed overflow). *)
Definition OnMessageReceived (received_message : T) (now_nanoseconds : Z)
  (this : ReceivedMessageAgeCollector) : option ReceivedMessageAgeCollector :=
  match TimeStamp_value received_message with
  | None => None
  | Some timestamp_from_header =>
      if fst timestamp_from_header then
        if negb (snd timestamp_from_header =? 0) && negb (now_nanoseconds =? 0) then
          match int64_sub now_nanoseconds (snd timestamp_from_header) with
          | None => None
          | Some age_nanos =>
              let age_millis := duration_milli_count age_nanos in
              Some (Method.exec (AcceptData age_millis) this)
          end
        else
          Some this
      else
        Some this
  end.

(** A sequence of deliveries, in order. *)
Fixpoint OnMessagesReceived (events : list (T * Z))
  (this : ReceivedMessageAgeCollector) : option ReceivedMessageAgeCollector :=
  match events with
  | [] => Some this
  | (received_message, now_nanoseconds) :: rest =>
      match OnMessageReceived received_message now_nanoseconds this with
      | None => None
      | Some this' => OnMessagesReceived rest this'
      end
  end.

End WithScalar.

Arguments ReceivedMessageAgeCollector F : clear implicits.
Arguments ReceivedMessageAgeCollector_new F {_}.
#[global] Existing Instance AgeHooks.

(** Two message types: one with a header stamp, one without. *)
Record Stamped : Type := { header : Time; payload : Z }.

#[global] Instance Stamped_MessageType : MessageType Stamped :=
  {| header_stamp := Some header |}.

#[global] Instance unit_MessageType : MessageType unit :=
  {| header_stamp := None |}.

End received_message_age.

(* ================================================================= *)
(** ** Sequences of calls on a collector *)

Module calls.

Section WithHooks.
Context {F : Type} `{Scalar F} {D : Type} `{Hooks F D}.

(** The public methods of [Collector], as values. *)
Inductive call : Type :=
  | CallStart
  | CallStop
  | CallAcceptData (measurement : F)
  | CallClearCurrentMeasurements
  | CallGetStatisticsResults
  | CallIsStarted.

Definition run_call (c : call) (this : Collector F D) : Collector F D :=
  match c with
  | CallStart => Method.exec Start this
  | CallStop => Method.exec Stop this
  | CallAcceptData measurement => Method.exec (AcceptData measurement) this
  | CallClearCurrentMeasurements => Method.exec ClearCurrentMeasurements this
  | CallGetStatisticsResults => Method.exec GetStatisticsResults this
  | CallIsStarted => Method.exec IsStarted this
  end.

Definition run_calls (cs : list call) (this : Collector F D) : Collector F D :=
  fold_left (fun s c => run_call c s) cs this.

(** What the lifecycle calls of a sequence leave in [started_]: the
    kind of the last [Start]/[Stop] among them, or the initial value. *)
Fixpoint last_lifecycle (cs : list call) (initial : bool) : bool :=
  match cs with
  | [] => initial
  | CallStart :: rest => last_lifecycle rest true
  | CallStop :: rest => last_lifecycle rest false
  | _ :: rest => last_lifecycle rest initial
  end.

End WithHooks.

Arguments call F : clear implicits.

End calls.

(** What the age adapter feeds for messages with a header: one age
    [now - stamp], in milliseconds, for every event whose stamp (in
    nanoseconds) and receipt time are both different from 0. *)
Module age_reference.

Import generate_statistics_message topic_statistics_collector.

Definition stamp_nanos (stamp : Time) : Z :=
  (sec stamp * 1000000000 + nanosec stamp)%Z.

Definition has_valid_times (event : Time * Z) : bool :=
  negb (stamp_nanos (fst event) =? 0)%Z && negb (snd event =? 0)%Z.

Definition expected_ages (events : list (Time * Z)) : list Z :=
  map (fun event => (snd event - stamp_nanos (fst event))%Z)
    (filter has_valid_times events).

End age_reference.

(** A binary64 value that can result from converting a non-negative
    integer: a zero, a finite number or an infinity, with the sign bit
    clear. *)
Definition is_nonnegative_number (x : binary64.double) : Prop :=
  match x with
  | S754_zero s => s = false
  | S754_infinity s => s = false
  | S754_finite s _ _ => s = false
  | S754_nan => False
  end.

(* ================================================================= *)
(** ** The reals denoted by binary64 values, and rounding *)

(** Reference notions for the numerical claims: the real number a finite
    binary64 value denotes, the position of a real relative to the
    integer mantissa that the rounding functions of [SpecFloat] carry
    along, and what it means for a value to be a real rounded to
    nearest. *)
Module rounding.

Local Open Scope R_scope.

(** [2^e] as a real *)
Definition p2 (e : Z) : R := powerRZ 2 e.






(** unit roundoff and half the smallest positive number *)
Definition u : R := p2 (-53).




End rounding.

(* ================================================================= *)
(** ** Concrete runs on binary64 *)

Example DBL_MAX_is_largest_finite :
  binary64.DBL_MAX = SFmax_float binary64.prec binary64.emax.
Proof. reflexivity. Qed.

Example DBL_MIN_is_positive_normal :
  valid_binary binary64.prec binary64.emax binary64.DBL_MIN = true /\
  SFltb (S754_zero false) binary64.DBL_MIN = true /\
  double_to_R binary64.DBL_MIN = Some (1 * powerRZ 2 (-1022))%R.
Proof.
  split; [reflexivity|]. split; [reflexivity|].
  cbn [double_to_R binary64.DBL_MIN cond_Zopp]. f_equal.
  replace (-1022)%Z with (52 + -1074)%Z by reflexivity.
  rewrite powerRZ_add by lra.
  replace (Z.pos (2 ^ 52)) with (2 ^ 52)%Z by reflexivity.
  change 52%Z with (Z.of_nat 52) at 2.
  rewrite <- pow_powerRZ, pow_IZR. change (Z.of_nat 52) with 52%Z. lra.
Qed.

(** observations [1.0, 2.0, 3.0]: average 2, min 1, max 3, count 3 and
    standard deviation 0.81649658... *)
Example three_measurements :
  Method.result GetStatistics
    (AddMeasurements [binary64.of_Z 1; binary64.of_Z 2; binary64.of_Z 3]
       MovingAverageStatistics_default)
  = {| average := binary64.of_Z 2;
       min := binary64.of_Z 1;
       max := binary64.of_Z 3;
       standard_deviation := S754_finite false 7354347395230782 (-53);
       sample_count := 3 |}.
Proof. vm_compute. reflexivity. Qed.

(** observations [5.0, NaN, 5.0]: the NaN is dropped *)
Example nan_between_measurements :
  Method.result GetStatistics
    (AddMeasurements [binary64.of_Z 5; S754_nan; binary64.of_Z 5]
       MovingAverageStatistics_default)
  = {| average := binary64.of_Z 5;
       min := binary64.of_Z 5;
       max := binary64.of_Z 5;
       standard_deviation := S754_zero false;
       sample_count := 2 |}.
Proof. vm_compute. reflexivity. Qed.

(** 50_000 ns and 70_000 ns are converted to the doubles nearest to
    0.05 and 0.07 *)
Example fifty_microseconds :
  topic_statistics_collector.duration_milli_count 50000
  = S754_finite false 7205759403792794 (-57)
  /\ (Rabs (IZR 7205759403792794 * / IZR (2 ^ 57) - 5 / 100) <= / IZR (2 ^ 58))%R.
Proof.
  split; [vm_compute; reflexivity|].
  apply Rabs_le. cbn [Z.pow Z.pow_pos Pos.iter Z.mul Pos.mul]. lra.
Qed.

Example seventy_microseconds :
  topic_statistics_collector.duration_milli_count 70000
  = S754_finite false 5044031582654956 (-56)
  /\ (Rabs (IZR 5044031582654956 * / IZR (2 ^ 56) - 7 / 100) <= / IZR (2 ^ 57))%R.
Proof.
  split; [vm_compute; reflexivity|].
  apply Rabs_le. cbn [Z.pow Z.pow_pos Pos.iter Z.mul Pos.mul]. lra.
Qed.

(* ================================================================= *)
(** ** Properties of the aggregator *)

Section AggregatorProperties.
Context {F : Type} `{Scalar F}.

Lemma uint64_incr_small (n : Z) :
  (0 <= n < UINT64_MODULUS - 1)%Z -> uint64_incr n = (n + 1)%Z.
Proof.
  intros Hn. unfold uint64_incr. apply Z.mod_small. lia.
Qed.

(** One accepted measurement, all five members at once. *)
Lemma AddMeasurement_accept (x : F) (this : MovingAverageStatistics F) :
  isnan x = false ->
  Method.exec (AddMeasurement x) this =
    let n' := uint64_incr (count_ this) in
    let m' := (average_ this + (x - average_ this) / of_integer n')%scalar in
    {| average_ := m';
       min_ := std_min (min_ this) x;
       max_ := std_max (max_ this) x;
       sum_of_square_diff_from_mean_ :=
         (sum_of_square_diff_from_mean_ this + (x - average_ this) * (x - m'))%scalar;
       count_ := n' |}.
Proof.
  intros Hx. unfold AddMeasurement. rewrite Hx. reflexivity.
Qed.

Lemma AddMeasurement_reject (x : F) (this : MovingAverageStatistics F) :
  isnan x = true -> AddMeasurement x this = (tt, this).
Proof.
  intros Hx. unfold AddMeasurement. rewrite Hx. reflexivity.
Qed.

Lemma Reset_exec (this : MovingAverageStatistics F) :
  Method.exec Reset this = MovingAverageStatistics_default.
Proof. reflexivity. Qed.

Lemma GetStatistics_pure (this : MovingAverageStatistics F) :
  Method.exec GetStatistics this = this.
Proof.
  unfold GetStatistics, Method.exec, Method.bind, Method.get.
  destruct (count_ this =? 0)%Z; reflexivity.
Qed.

Lemma GetStatistics_nonempty (this : MovingAverageStatistics F) :
  count_ this <> 0%Z ->
  Method.result GetStatistics this =
    {| sample_count := count_ this;
       average := average_ this;
       min := min_ this;
       max := max_ this;
       standard_deviation :=
         fsqrt (sum_of_square_diff_from_mean_ this / of_integer (count_ this))%scalar |}.
Proof.
  intros Hcount. apply Z.eqb_neq in Hcount.
  unfold GetStatistics, Method.result, Method.bind, Method.get.
  rewrite Hcount. reflexivity.
Qed.

Lemma GetStatistics_when_empty (this : MovingAverageStatistics F) :
  count_ this = 0%Z -> Method.result GetStatistics this = StatisticData_default.
Proof.
  intros Hcount. unfold GetStatistics, Method.result, Method.bind, Method.get.
  rewrite Hcount. reflexivity.
Qed.

Lemma StatisticData_default_all_nan : all_nan (@StatisticData_default F _).
Proof.
  unfold all_nan; cbn; rewrite isnan_nan; repeat split.
Qed.

(** The count after a run of accepted measurements, modulo [2^64]. *)
Lemma AddMeasurements_count (items : list F) :
  forall this : MovingAverageStatistics F,
    is_uint64 (count_ this) ->
    Forall (fun item => isnan item = false) items ->
    count_ (AddMeasurements items this)
    = ((count_ this + Z.of_nat (List.length items)) mod UINT64_MODULUS)%Z.
Proof.
  induction items as [|item items IH]; intros this Hrange Hitems.
  - cbn. rewrite Z.add_0_r, Z.mod_small by exact Hrange. reflexivity.
  - inversion Hitems as [|? ? Hitem Hitems']; subst.
    change (AddMeasurements (item :: items) this)
      with (AddMeasurements items (Method.exec (AddMeasurement item) this)).
    rewrite IH; [| | exact Hitems'].
    + rewrite (AddMeasurement_accept item this Hitem). cbn [count_ List.length].
      unfold uint64_incr. rewrite Zplus_mod_idemp_l. f_equal. lia.
    + rewrite (AddMeasurement_accept item this Hitem). cbn [count_].
      unfold is_uint64, uint64_incr. apply Z.mod_pos_bound. reflexivity.
Qed.

(** C3.  Whenever the count is 0, and in particular right after
    [Reset()] whatever the earlier state [history] was, [GetStatistics()]
    returns the default snapshot: average, min, max and standard
    deviation are NaN and the sample count is 0. *)
Theorem GetStatistics_empty_is_all_nan :
  forall (this history : MovingAverageStatistics F),
    count_ this = 0%Z ->
    Method.result GetStatistics this = StatisticData_default /\
    all_nan (Method.result GetStatistics this) /\
    all_nan (Method.result GetStatistics (Method.exec Reset history)).
Proof.
  intros this history Hcount.
  split; [exact (GetStatistics_when_empty this Hcount)|]. split.
  - rewrite (GetStatistics_when_empty this Hcount).
    exact StatisticData_default_all_nan.
  - rewrite Reset_exec, GetStatistics_when_empty by reflexivity.
    exact StatisticData_default_all_nan.
Qed.

(** C4.  [AddMeasurement(NaN)] is a no-op on every aggregator state: no
    member changes, nothing is reported, and [GetStatistics()] and
    [GetCount()] afterwards observe the prior state. *)
Theorem AddMeasurement_nan_is_noop :
  forall (this : MovingAverageStatistics F) (x : F),
    isnan x = true ->
    Method.exec (AddMeasurement x) this = this /\
    Method.result (AddMeasurement x) this = tt /\
    Method.result GetStatistics (Method.exec (AddMeasurement x) this)
      = Method.result GetStatistics this /\
    Method.result GetCount (Method.exec (AddMeasurement x) this)
      = Method.result GetCount this.
Proof.
  intros this x Hx.
  unfold Method.exec, Method.result.
  rewrite (AddMeasurement_reject x this Hx). cbn. repeat split.
Qed.

End AggregatorProperties.

Lemma GetStatistics_empty_is_all_nan_witness :
  count_ (@MovingAverageStatistics_default binary64.double _) = 0%Z /\
  all_nan (Method.result GetStatistics
             (Method.exec Reset
                (AddMeasurements [binary64.of_Z 4; binary64.of_Z 9]
                   (@MovingAverageStatistics_default binary64.double _)))).
Proof.
  split; [reflexivity|].
  exact (proj2 (proj2 (GetStatistics_empty_is_all_nan
                         (@MovingAverageStatistics_default binary64.double _)
                         (AddMeasurements [binary64.of_Z 4; binary64.of_Z 9]
                            MovingAverageStatistics_default) eq_refl))).
Defined.

Lemma AddMeasurement_nan_is_noop_witness :
  isnan (S754_nan : binary64.double) = true /\
  Method.exec (AddMeasurement (S754_nan : binary64.double))
    (AddMeasurements [binary64.of_Z 4; binary64.of_Z 9] MovingAverageStatistics_default)
  = AddMeasurements [binary64.of_Z 4; binary64.of_Z 9] MovingAverageStatistics_default.
Proof.
  split; [reflexivity|].
  exact (proj1 (AddMeasurement_nan_is_noop
                  (AddMeasurements [binary64.of_Z 4; binary64.of_Z 9]
                     MovingAverageStatistics_default)
                  (S754_nan : binary64.double) eq_refl)).
Defined.

(** C5 (the code at a failing input).  After [Reset()], the first
    observation [-1.0] sets count, mean and min to it, but [max_] keeps
    the value installed by [Reset()], [std::numeric_limits<double>::min()],
    the smallest positive normal number [2^-1022]. *)
Theorem Reset_then_negative_measurement_keeps_max :
  forall this : MovingAverageStatistics binary64.double,
    let after :=
      Method.exec (AddMeasurement (binary64.of_Z (-1))) (Method.exec Reset this) in
    count_ after = 1%Z /\
    average_ after = binary64.of_Z (-1) /\
    min_ after = binary64.of_Z (-1) /\
    max_ after = binary64.DBL_MIN /\
    max_ after <> binary64.of_Z (-1) /\
    max (Method.result GetStatistics after) = S754_finite false (2 ^ 52) (-1074).
Proof.
  intros this after. subst after. rewrite Reset_exec.
  vm_compute. repeat split. discriminate.
Qed.

(* ================================================================= *)
(** ** Properties of the collector lifecycle *)

Section CollectorProperties.
Context {F : Type} `{Scalar F} {D : Type} `{Hooks F D}.

(** Unfolding the monadic glue of the lifecycle methods. *)
Ltac unfold_methods :=
  unfold Start, Stop, IsStarted, ClearCurrentMeasurements, on_collected_data,
    call_hook, GetCount, Method.result, Method.exec, Method.bind, Method.gets,
    Method.modify, Method.ret, Method.get in *.

Lemma Start_when_started (this : Collector F D) :
  started_ this = true -> Start this = (false, this).
Proof.
  intros Hs. unfold_methods. rewrite Hs. reflexivity.
Qed.

Lemma Stop_when_stopped (this : Collector F D) :
  started_ this = false -> Stop this = (false, this).
Proof.
  intros Hs. unfold_methods. rewrite Hs. reflexivity.
Qed.

Lemma Start_when_stopped (this : Collector F D) :
  started_ this = false ->
  Start this = call_hook SetupStart (set_started_ true this).
Proof.
  intros Hs. unfold_methods. rewrite Hs. reflexivity.
Qed.

Lemma Stop_when_started (this : Collector F D) :
  started_ this = true ->
  Stop this =
    (Method.result SetupStop (collected_data_ this, derived_ this),
     {| collected_data_ := MovingAverageStatistics_default;
        started_ := false;
        derived_ := snd (Method.exec SetupStop (collected_data_ this, derived_ this)) |}).
Proof.
  intros Hs. unfold_methods. rewrite Hs. cbn.
  destruct (SetupStop (collected_data_ this, derived_ this)) as [r [data d]].
  reflexivity.
Qed.

Lemma call_hook_started_ (hook : Method.t (MovingAverageStatistics F * D) bool)
  (this : Collector F D) :
  started_ (Method.exec (call_hook hook) this) = started_ this.
Proof.
  unfold_methods. destruct (hook (collected_data_ this, derived_ this)) as [r [data d]].
  reflexivity.
Qed.

Lemma call_hook_result (hook : Method.t (MovingAverageStatistics F * D) bool)
  (this : Collector F D) :
  Method.result (call_hook hook) this
  = Method.result hook (collected_data_ this, derived_ this).
Proof.
  unfold_methods. destruct (hook (collected_data_ this, derived_ this)) as [r [data d]].
  reflexivity.
Qed.

(** C6.  A [Stop()] that finds the collector started leaves the
    aggregator with [GetCount() = 0], whatever the [SetupStop] hook did
    and returned; [Stop()] returns the hook's result (so possibly
    [false]) and the collector is stopped. *)
Theorem Stop_clears_measurements :
  forall this : Collector F D,
    started_ this = true ->
    Method.result GetCount (collected_data_ (Method.exec Stop this)) = 0%Z /\
    collected_data_ (Method.exec Stop this) = MovingAverageStatistics_default /\
    Method.result Stop this
      = Method.result SetupStop (collected_data_ this, derived_ this) /\
    Method.result IsStarted (Method.exec Stop this) = false.
Proof.
  intros this Hs.
  pose proof (Stop_when_started this Hs) as E.
  unfold Method.exec, Method.result in *.
  rewrite E. cbn. repeat split.
Qed.

(** C7.  With setup hooks that return [true]: on a stopped collector
    [Start()] returns [true] and a second [Start()] returns [false] and
    changes nothing (the state, including whatever the hook could touch,
    is the same, and the collector stays started); on a started
    collector [Stop()] returns [true] and a second [Stop()] returns
    [false] and changes nothing. *)
Theorem Start_twice_Stop_twice :
  forall stopped started : Collector F D,
    (forall st, Method.result SetupStart st = true) ->
    (forall st, Method.result SetupStop st = true) ->
    started_ stopped = false ->
    started_ started = true ->
    (Method.result Start stopped = true /\
     Method.result Start (Method.exec Start stopped) = false /\
     Method.exec Start (Method.exec Start stopped) = Method.exec Start stopped /\
     Method.result IsStarted (Method.exec Start stopped) = true)
    /\
    (Method.result Stop started = true /\
     Method.result Stop (Method.exec Stop started) = false /\
     Method.exec Stop (Method.exec Stop started) = Method.exec Stop started /\
     Method.result IsStarted (Method.exec Stop started) = false).
Proof.
  intros stopped started Hstart Hstop Hs0 Hs1.
  assert (Hafter_start : started_ (Method.exec Start stopped) = true).
  { unfold Method.exec. rewrite (Start_when_stopped stopped Hs0).
    apply (call_hook_started_ SetupStart (set_started_ true stopped)). }
  assert (Hafter_stop : started_ (Method.exec Stop started) = false).
  { unfold Method.exec. rewrite (Stop_when_started started Hs1). reflexivity. }
  split.
  - repeat split.
    + unfold Method.result at 1. rewrite (Start_when_stopped stopped Hs0).
      change (Method.result (call_hook SetupStart) (set_started_ true stopped) = true).
      rewrite call_hook_result. apply Hstart.
    + unfold Method.result at 1. rewrite Start_when_started by exact Hafter_start.
      reflexivity.
    + unfold Method.exec at 1. rewrite Start_when_started by exact Hafter_start.
      reflexivity.
    + exact Hafter_start.
  - repeat split.
    + unfold Method.result at 1. rewrite (Stop_when_started started Hs1).
      apply Hstop.
    + unfold Method.result at 1. rewrite Stop_when_stopped by exact Hafter_stop.
      reflexivity.
    + unfold Method.exec at 1. rewrite Stop_when_stopped by exact Hafter_stop.
      reflexivity.
    + exact Hafter_stop.
Qed.

(** C10.  When [Start()] is called on a stopped collector and the
    [SetupStart] hook returns [false], [Start()] returns [false] but the
    collector is left started: [IsStarted()] is [true], a further
    [Start()] returns [false] without effect, and [Stop()] returns the
    result of its own hook. *)
Theorem Start_hook_failure_leaves_started :
  forall this : Collector F D,
    started_ this = false ->
    Method.result SetupStart (collected_data_ this, derived_ this) = false ->
    let after := Method.exec Start this in
    Method.result Start this = false /\
    Method.result IsStarted after = true /\
    Method.result Start after = false /\
    Method.exec Start after = after /\
    Method.result Stop after
      = Method.result SetupStop (collected_data_ after, derived_ after).
Proof.
  intros this Hs Hhook after.
  assert (Hafter : started_ after = true).
  { subst after. unfold Method.exec. rewrite (Start_when_stopped this Hs).
    apply (call_hook_started_ SetupStart (set_started_ true this)). }
  repeat split.
  - unfold Method.result at 1. rewrite (Start_when_stopped this Hs).
    change (Method.result (call_hook SetupStart) (set_started_ true this) = false).
    rewrite call_hook_result. exact Hhook.
  - exact Hafter.
  - unfold Method.result at 1. rewrite Start_when_started by exact Hafter.
    reflexivity.
  - unfold Method.exec at 1. rewrite Start_when_started by exact Hafter.
    reflexivity.
  - unfold Method.result at 1. rewrite Stop_when_started by exact Hafter.
    reflexivity.
Qed.

End CollectorProperties.

Lemma Stop_clears_measurements_witness :
  started_ refusing.started_collector = true /\
  Method.result GetCount (collected_data_ refusing.started_collector) = 2%Z /\
  Method.result Stop refusing.started_collector = false /\
  Method.result GetCount
    (collected_data_ (Method.exec Stop refusing.started_collector)) = 0%Z.
Proof.
  pose proof (Stop_clears_measurements refusing.started_collector eq_refl)
    as [Hcount [_ [Hret _]]].
  split; [reflexivity|]. split; [reflexivity|]. split.
  - rewrite Hret. reflexivity.
  - exact Hcount.
Defined.

Lemma Start_hook_failure_leaves_started_witness :
  started_ refusing.stopped_collector = false /\
  Method.result Start refusing.stopped_collector = false /\
  Method.result IsStarted (Method.exec Start refusing.stopped_collector) = true.
Proof.
  pose proof (Start_hook_failure_leaves_started refusing.stopped_collector
                eq_refl eq_refl) as [Hret [Hstarted _]].
  split; [reflexivity|]. split; [exact Hret | exact Hstarted].
Defined.

Lemma Start_twice_Stop_twice_witness :
  started_ period_fixture.stopped = false /\
  started_ period_fixture.started = true /\
  (Method.result Start period_fixture.stopped = true /\
   Method.result Start (Method.exec Start period_fixture.stopped) = false) /\
  (Method.result Stop period_fixture.started = true /\
   Method.result Stop (Method.exec Stop period_fixture.started) = false).
Proof.
  pose proof (Start_twice_Stop_twice
                period_fixture.stopped period_fixture.started
                (fun st => match st with (_, _) => eq_refl end)
                (fun st => eq_refl)
                eq_refl eq_refl)
    as [[Ha [Hb _]] [Hc [Hd _]]].
  repeat split; assumption.
Defined.

(* ================================================================= *)
(** ** Properties of the message projection *)

Section MessageProperties.
Context {F : Type} `{Scalar F}.
Import generate_statistics_message.

(** C9.  For every snapshot and metadata, [GenerateStatisticMessage]
    returns a message whose [statistics] are exactly five data points, in
    the order AVERAGE, MAXIMUM, MINIMUM, SAMPLE_COUNT, STDDEV, each with
    its type code; SAMPLE_COUNT carries the sample count converted to the
    scalar type, the others the snapshot's fields; source name, metric
    name, unit and both window bounds are copied unchanged.  (The
    function is total and its arguments are values.) *)
Theorem GenerateStatisticMessage_five_points :
  forall (node_name metric_name unit : string) (window_start window_stop : Time)
         (data : StatisticData F),
    GenerateStatisticMessage node_name metric_name unit window_start window_stop data
    = {| measurement_source_name := node_name;
         metrics_source := metric_name;
         unit_ := unit;
         generate_statistics_message.window_start := window_start;
         generate_statistics_message.window_stop := window_stop;
         statistics :=
           [ {| data_type := STATISTICS_DATA_TYPE_AVERAGE; data := average data |};
             {| data_type := STATISTICS_DATA_TYPE_MAXIMUM; data := max data |};
             {| data_type := STATISTICS_DATA_TYPE_MINIMUM; data := min data |};
             {| data_type := STATISTICS_DATA_TYPE_SAMPLE_COUNT;
                data := of_integer (sample_count data) |};
             {| data_type := STATISTICS_DATA_TYPE_STDDEV;
                data := standard_deviation data |} ] |}
    /\ List.length
         (statistics (GenerateStatisticMessage node_name metric_name unit
                        window_start window_stop data)) = 5%nat.
Proof.
  intros. split; reflexivity.
Qed.

End MessageProperties.

(* ================================================================= *)
(** ** Properties of the period adapter *)

Section PeriodProperties.
Context {F : Type} `{Scalar F} {T : Type}.
Import topic_statistics_collector period_reference.
Local Open Scope Z_scope.

Lemma last_cons {A} (a d : A) (l : list A) : last (a :: l) d = last l a.
Proof.
  revert a d. induction l as [|b l IH]; intros a d; [reflexivity|].
  change (last (a :: b :: l) d) with (last (b :: l) d).
  rewrite (IH b d), (IH b a). reflexivity.
Qed.

(** the first delivery on an uninitialised adapter *)
Lemma OnMessageReceived_first (message : T) (now : Z)
  (this : ReceivedMessagePeriodCollector F) :
  time_last_message_received_ (derived_ this) = kUninitializedTime ->
  OnMessageReceived message now this
  = Some (set_time_last_message_received_ now this).
Proof.
  intros Hlast. unfold OnMessageReceived. rewrite Hlast. reflexivity.
Qed.

(** a delivery on an initialised adapter *)
Lemma OnMessageReceived_next (message : T) (now : Z)
  (this : ReceivedMessagePeriodCollector F) :
  time_last_message_received_ (derived_ this) <> kUninitializedTime ->
  in_int64 (now - time_last_message_received_ (derived_ this)) = true ->
  OnMessageReceived message now this
  = Some {| collected_data_ :=
              Method.exec
                (AddMeasurement
                   (duration_milli_count
                      (now - time_last_message_received_ (derived_ this))))
                (collected_data_ this);
            started_ := started_ this;
            derived_ := {| time_last_message_received_ := now |} |}.
Proof.
  intros Hlast Hrange. unfold OnMessageReceived, int64_sub.
  apply Z.eqb_neq in Hlast. rewrite Hlast, Hrange. f_equal.
  unfold AcceptData, on_collected_data, Method.exec. cbn.
  destruct (AddMeasurement _ (collected_data_ this)) as [u data]. reflexivity.
Qed.

Lemma OnMessagesReceived_initialised (events : list (T * Z)) :
  forall this : ReceivedMessagePeriodCollector F,
    time_last_message_received_ (derived_ this) <> kUninitializedTime ->
    Forall (fun event => snd event <> 0) events ->
    Forall (fun nanos => in_int64 nanos = true)
      (periods_from (time_last_message_received_ (derived_ this)) (map snd events)) ->
    OnMessagesReceived events this
    = Some {| collected_data_ :=
                AddMeasurements
                  (map duration_milli_count
                     (periods_from (time_last_message_received_ (derived_ this))
                        (map snd events)))
                  (collected_data_ this);
              started_ := started_ this;
              derived_ :=
                {| time_last_message_received_ :=
                     last (map snd events)
                       (time_last_message_received_ (derived_ this)) |} |}.
Proof.
  induction events as [|[message now] events IH]; intros this Hlast Hnz Hrange.
  - cbn. destruct this as [data st [last]]. reflexivity.
  - cbn [map snd periods_from] in *.
    inversion Hnz as [|? ? Hnow Hnz']; subst.
    inversion Hrange as [|? ? Hd Hrange']; subst.
    cbn [OnMessagesReceived].
    rewrite (OnMessageReceived_next message now this Hlast Hd).
    rewrite IH; [| exact Hnow | exact Hnz' | exact Hrange'].
    cbn [collected_data_ started_ derived_ time_last_message_received_].
    rewrite last_cons. reflexivity.
Qed.

(** C8 (receipt times other than the sentinel).  On an adapter whose
    last-received time is uninitialised (as the constructor and
    [SetupStart] leave it), for every sequence of events whose receipt
    times are all different from the sentinel [0] (and whose consecutive
    differences fit [int64_t]): the first event records its receipt time
    and feeds nothing, and every later event at time [now] feeds exactly
    the one observation [now - last_received] nanoseconds, converted to
    milliseconds, and sets last-received to [now]. *)
Theorem OnMessagesReceived_periods :
  forall (events : list (T * Z)) (this prior : ReceivedMessagePeriodCollector F),
    time_last_message_received_ (derived_ this) = kUninitializedTime ->
    Forall (fun event => snd event <> 0) events ->
    Forall (fun nanos => in_int64 nanos = true) (expected_periods (map snd events)) ->
    OnMessagesReceived events this = Some (expected_after events this) /\
    time_last_message_received_ (derived_ (ReceivedMessagePeriodCollector_new F))
      = kUninitializedTime /\
    time_last_message_received_ (derived_ (Method.exec (call_hook SetupStart) prior))
      = kUninitializedTime.
Proof.
  intros events this prior Hlast Hnz Hrange.
  split; [| split; reflexivity].
  unfold expected_after.
  destruct events as [|[message now] events].
  - cbn. destruct this as [data st [last]]. reflexivity.
  - cbn [map snd expected_periods] in *.
    inversion Hnz as [|? ? Hnow Hnz']; subst.
    cbn [OnMessagesReceived].
    rewrite (OnMessageReceived_first message now this Hlast).
    rewrite OnMessagesReceived_initialised; [| exact Hnow | exact Hnz' | exact Hrange].
    cbn [collected_data_ started_ derived_ time_last_message_received_
         set_time_last_message_received_ set_derived_].
    rewrite last_cons. reflexivity.
Qed.

End PeriodProperties.

(** The scenario of the specification: receipt times 1_000_000,
    1_050_000 and 1_120_000 ns feed exactly the two observations 0.05 ms
    and 0.07 ms (as binary64 values). *)
Lemma OnMessagesReceived_periods_witness :
  topic_statistics_collector.OnMessagesReceived
    [(tt, 1000000%Z); (tt, 1050000%Z); (tt, 1120000%Z)] period_fixture.stopped
  = Some {| collected_data_ :=
              AddMeasurements
                [ S754_finite false 7205759403792794 (-57);
                  S754_finite false 5044031582654956 (-56) ]
                MovingAverageStatistics_default;
            started_ := false;
            derived_ :=
              {| topic_statistics_collector.time_last_message_received_ := 1120000 |} |}.
Proof.
  refine (proj1 (@OnMessagesReceived_periods binary64.double _ unit
                   [(tt, 1000000%Z); (tt, 1050000%Z); (tt, 1120000%Z)]
                   period_fixture.stopped period_fixture.stopped eq_refl _ _)).
  - repeat (constructor; [cbn; intro; discriminate|]). constructor.
  - repeat (constructor; [reflexivity|]). constructor.
Defined.

(** C8 as stated fails when a receipt time equals the sentinel: after
    events at 0 ns and 5 ns the second ("subsequent") event has fed
    nothing, where one period of 5 ns was expected. *)
Lemma OnMessagesReceived_zero_time_counterexample :
  topic_statistics_collector.OnMessagesReceived
    [(tt, 0%Z); (tt, 5%Z)] period_fixture.stopped
  <> Some (period_reference.expected_after
             [(tt, 0%Z); (tt, 5%Z)] period_fixture.stopped) /\
  option_map (fun this => Method.result GetCount (collected_data_ this))
    (topic_statistics_collector.OnMessagesReceived
       [(tt, 0%Z); (tt, 5%Z)] period_fixture.stopped) = Some 0%Z /\
  Method.result GetCount
    (collected_data_
       (period_reference.expected_after [(tt, 0%Z); (tt, 5%Z)] period_fixture.stopped))
  = 1%Z.
Proof.
  split; [| split; reflexivity].
  vm_compute. discriminate.
Qed.

(* ================================================================= *)
(** ** The single-pass recurrence against the two-pass formulas *)

Section TwoPassSums.
Import two_pass.
Local Open Scope R_scope.






End TwoPassSums.

(* ================================================================= *)
(** ** Sequences of measurements *)

Section AggregatorSequences.
Context {F : Type} `{Scalar F}.

Lemma AddMeasurements_cons (item : F) (items : list F)
  (this : MovingAverageStatistics F) :
  AddMeasurements (item :: items) this
  = AddMeasurements items (Method.exec (AddMeasurement item) this).
Proof. reflexivity. Qed.

Lemma AddMeasurement_reject_exec (x : F) (this : MovingAverageStatistics F) :
  isnan x = true -> Method.exec (AddMeasurement x) this = this.
Proof.
  intros Hx. unfold Method.exec. rewrite (AddMeasurement_reject x this Hx).
  reflexivity.
Qed.

Lemma AddMeasurements_filter (items : list F) :
  forall this : MovingAverageStatistics F,
    AddMeasurements items this
    = AddMeasurements (filter (fun item => negb (isnan item)) items) this.
Proof.
  induction items as [|item items IH]; intros this; [reflexivity|].
  rewrite AddMeasurements_cons. cbn [filter].
  destruct (isnan item) eqn:Hitem; cbn [negb].
  - rewrite (AddMeasurement_reject_exec item this Hitem). apply IH.
  - rewrite AddMeasurements_cons. apply IH.
Qed.

Lemma filter_not_nan_Forall (items : list F) :
  Forall (fun item => isnan item = false)
    (filter (fun item => negb (isnan item)) items).
Proof.
  apply Forall_forall. intros x Hx. apply filter_In in Hx.
  destruct Hx as [_ Hx]. destruct (isnan x); [discriminate|reflexivity].
Qed.

(** X1.  NaN measurements leave no trace in a sequence: feeding [items]
    gives the same aggregator, and so the same snapshot, as feeding
    [items] with the NaNs removed. *)
Theorem AddMeasurements_drops_nan :
  forall (items : list F) (this : MovingAverageStatistics F),
    let kept := filter (fun item => negb (isnan item)) items in
    AddMeasurements items this = AddMeasurements kept this /\
    Method.result GetStatistics (AddMeasurements items this)
      = Method.result GetStatistics (AddMeasurements kept this).
Proof.
  intros items this kept. subst kept.
  rewrite <- AddMeasurements_filter. split; reflexivity.
Qed.

(** X2.  Starting from a [uint64_t] count, [GetCount()] after a sequence
    of measurements is the old count plus the number of non-NaN
    measurements, modulo [2^64]. *)
Theorem GetCount_after_AddMeasurements :
  forall (items : list F) (this : MovingAverageStatistics F),
    is_uint64 (count_ this) ->
    Method.result GetCount (AddMeasurements items this)
    = ((count_ this
        + Z.of_nat (List.length (filter (fun item => negb (isnan item)) items)))
       mod UINT64_MODULUS)%Z.
Proof.
  intros items this Hrange.
  rewrite AddMeasurements_filter.
  apply AddMeasurements_count; [exact Hrange | apply filter_not_nan_Forall].
Qed.

(** X3.  With no observation, [Average()], [Max()], [Min()] and
    [StandardDeviation()] each return NaN, and none of them changes the
    aggregator. *)
Theorem accessors_on_empty_return_nan :
  forall this : MovingAverageStatistics F,
    count_ this = 0%Z ->
    (isnan (Method.result Average this) = true /\
     isnan (Method.result Max this) = true /\
     isnan (Method.result Min this) = true /\
     isnan (Method.result StandardDeviation this) = true) /\
    (Method.exec Average this = this /\ Method.exec Max this = this /\
     Method.exec Min this = this /\ Method.exec StandardDeviation this = this).
Proof.
  intros this Hcount.
  pose proof (GetStatistics_when_empty this Hcount) as Hres.
  pose proof (GetStatistics_pure this) as Hpure.
  unfold Method.result, Method.exec in Hres, Hpure.
  unfold Average, Max, Min, StandardDeviation, Method.result, Method.exec,
    Method.bind, Method.ret.
  destruct (GetStatistics this) as [r s]. cbn in Hres, Hpure. subst r s.
  cbn. rewrite isnan_nan. repeat split.
Qed.

End AggregatorSequences.

Lemma GetCount_after_AddMeasurements_witness :
  is_uint64 (count_ (@MovingAverageStatistics_default binary64.double _)) /\
  Method.result GetCount
    (AddMeasurements [binary64.of_Z 5; S754_nan; binary64.of_Z 5]
       MovingAverageStatistics_default) = 2%Z.
Proof.
  assert (Hrange : is_uint64 (count_ (@MovingAverageStatistics_default binary64.double _))).
  { unfold is_uint64, UINT64_MODULUS. cbn. lia. }
  split; [exact Hrange|].
  exact (GetCount_after_AddMeasurements
           [binary64.of_Z 5; S754_nan; binary64.of_Z 5]
           MovingAverageStatistics_default Hrange).
Defined.

Lemma accessors_on_empty_return_nan_witness :
  count_ (@MovingAverageStatistics_default binary64.double _) = 0%Z /\
  isnan (Method.result Max (@MovingAverageStatistics_default binary64.double _)) = true.
Proof.
  split; [reflexivity|].
  exact (proj1 (proj2 (proj1 (accessors_on_empty_return_nan
                                (@MovingAverageStatistics_default binary64.double _)
                                eq_refl)))).
Defined.

(* ================================================================= *)
(** ** Running minimum and maximum *)

Section RunningBounds.
Context {F : Type} `{Scalar F}.
Hypothesis flt_irrefl : forall x : F, flt x x = false.
Hypothesis flt_trans :
  forall x y z : F, flt x y = true -> flt y z = true -> flt x z = true.

Lemma flt_asym (x y : F) : flt x y = true -> flt y x = false.
Proof.
  intros Hxy. destruct (flt y x) eqn:Hyx; [|reflexivity].
  rewrite <- (flt_irrefl x). symmetry. exact (flt_trans x y x Hxy Hyx).
Qed.

Lemma std_min_keeps_lower_bound (x m y : F) :
  flt x m = false -> flt x y = false -> flt x (std_min m y) = false.
Proof.
  intros Hm Hy. unfold std_min. destruct (flt y m); assumption.
Qed.

Lemma std_min_below_old (x m y : F) :
  flt x m = false -> flt x (std_min m y) = false.
Proof.
  intros Hm. unfold std_min. destruct (flt y m) eqn:Hym; [|exact Hm].
  destruct (flt x y) eqn:Hxy; [|reflexivity].
  rewrite <- Hm. symmetry. exact (flt_trans x y m Hxy Hym).
Qed.

Lemma std_min_below_new (m y : F) : flt y (std_min m y) = false.
Proof.
  unfold std_min. destruct (flt y m) eqn:Hym; [apply flt_irrefl|exact Hym].
Qed.

Lemma std_min_not_above_old (m y : F) : flt m (std_min m y) = false.
Proof.
  unfold std_min. destruct (flt y m) eqn:Hym; [|apply flt_irrefl].
  apply flt_asym. exact Hym.
Qed.

Lemma std_max_keeps_upper_bound (x m y : F) :
  flt m x = false -> flt (std_max m y) x = false.
Proof.
  intros Hm. unfold std_max. destruct (flt m y) eqn:Hmy; [|exact Hm].
  destruct (flt y x) eqn:Hyx; [|reflexivity].
  rewrite <- Hm. symmetry. exact (flt_trans m y x Hmy Hyx).
Qed.

Lemma std_max_above_new (m y : F) : flt (std_max m y) y = false.
Proof.
  unfold std_max. destruct (flt m y) eqn:Hmy; [apply flt_irrefl|exact Hmy].
Qed.

Lemma std_max_not_below_old (m y : F) : flt (std_max m y) m = false.
Proof.
  unfold std_max. destruct (flt m y) eqn:Hmy; [|apply flt_irrefl].
  apply flt_asym. exact Hmy.
Qed.

(** Bounds that hold before a run of measurements hold after it. *)
Lemma AddMeasurements_keeps_lower_bound (x : F) (items : list F) :
  forall this : MovingAverageStatistics F,
    flt x (min_ this) = false ->
    flt x (min_ (AddMeasurements items this)) = false.
Proof.
  induction items as [|item items IH]; intros this Hmin; [assumption|].
  rewrite AddMeasurements_cons.
  destruct (isnan item) eqn:Hitem.
  - rewrite (AddMeasurement_reject_exec item this Hitem). apply IH; assumption.
  - apply IH; rewrite (AddMeasurement_accept item this Hitem); cbn [min_].
    apply std_min_below_old. exact Hmin.
Qed.

Lemma AddMeasurements_keeps_upper_bound (x : F) (items : list F) :
  forall this : MovingAverageStatistics F,
    flt (max_ this) x = false ->
    flt (max_ (AddMeasurements items this)) x = false.
Proof.
  induction items as [|item items IH]; intros this Hmax; [assumption|].
  rewrite AddMeasurements_cons.
  destruct (isnan item) eqn:Hitem.
  - rewrite (AddMeasurement_reject_exec item this Hitem). apply IH; assumption.
  - apply IH; rewrite (AddMeasurement_accept item this Hitem); cbn [max_].
    apply std_max_keeps_upper_bound. exact Hmax.
Qed.

Lemma AddMeasurements_bounds_items (items : list F) :
  forall (this : MovingAverageStatistics F) (x : F),
    In x items -> isnan x = false ->
    flt x (min_ (AddMeasurements items this)) = false /\
    flt (max_ (AddMeasurements items this)) x = false.
Proof.
  induction items as [|item items IH]; intros this x Hin Hx; [contradiction|].
  rewrite AddMeasurements_cons. destruct Hin as [->|Hin].
  - split.
    + apply AddMeasurements_keeps_lower_bound.
      rewrite (AddMeasurement_accept x this Hx); cbn [min_].
      apply std_min_below_new.
    + apply AddMeasurements_keeps_upper_bound.
      rewrite (AddMeasurement_accept x this Hx); cbn [max_].
      apply std_max_above_new.
  - apply IH; assumption.
Qed.

Lemma AddMeasurements_monotone (items : list F) (this : MovingAverageStatistics F) :
  flt (min_ this) (min_ (AddMeasurements items this)) = false /\
  flt (max_ (AddMeasurements items this)) (max_ this) = false.
Proof.
  split.
  - apply AddMeasurements_keeps_lower_bound, flt_irrefl.
  - apply AddMeasurements_keeps_upper_bound, flt_irrefl.
Qed.

End RunningBounds.

(** The running extremes are always values that were put there. *)
Lemma AddMeasurements_extremes_attained {F} `{Scalar F} (items : list F) :
  forall this : MovingAverageStatistics F,
    In (min_ (AddMeasurements items this)) (min_ this :: items) /\
    In (max_ (AddMeasurements items this)) (max_ this :: items).
Proof.
  induction items as [|item items IH]; intros this; [split; left; reflexivity|].
  rewrite AddMeasurements_cons.
  destruct (IH (Method.exec (AddMeasurement item) this)) as [Hmin Hmax].
  destruct (isnan item) eqn:Hitem.
  - rewrite (AddMeasurement_reject_exec item this Hitem) in *.
    split; [destruct Hmin as [E|Hin] | destruct Hmax as [E|Hin]];
      try (left; exact E); right; right; exact Hin.
  - assert (Emin : min_ (Method.exec (AddMeasurement item) this)
                   = std_min (min_ this) item)
      by (rewrite (AddMeasurement_accept item this Hitem); reflexivity).
    assert (Emax : max_ (Method.exec (AddMeasurement item) this)
                   = std_max (max_ this) item)
      by (rewrite (AddMeasurement_accept item this Hitem); reflexivity).
    rewrite Emin in Hmin. rewrite Emax in Hmax. split.
    + destruct Hmin as [E|Hin]; [|right; right; exact Hin].
      rewrite <- E. unfold std_min. destruct (flt item (min_ this));
        [right; left; reflexivity | left; reflexivity].
    + destruct Hmax as [E|Hin]; [|right; right; exact Hin].
      rewrite <- E. unfold std_max. destruct (flt (max_ this) item);
        [right; left; reflexivity | left; reflexivity].
Qed.

(** [operator<] on binary64 is a strict order (NaN is unrelated to
    everything). *)
Lemma SFltb_irrefl (x : spec_float) : SFltb x x = false.
Proof.
  unfold SFltb, SFcompare.
  destruct x as [s|s| |s m e]; try destruct s; try reflexivity;
    rewrite Z.compare_refl;
    change (Pos.compare_cont Eq m m) with (Pos.compare m m);
    rewrite Pos.compare_refl; reflexivity.
Qed.

Lemma SFltb_finite_spec (s1 s2 : bool) (m1 m2 : positive) (e1 e2 : Z) :
  SFltb (S754_finite s1 m1 e1) (S754_finite s2 m2 e2) = true <->
  match s1, s2 with
  | true, false => True
  | false, true => False
  | false, false => (e1 < e2 \/ (e1 = e2 /\ (m1 < m2)%positive))%Z
  | true, true => (e2 < e1 \/ (e1 = e2 /\ (m2 < m1)%positive))%Z
  end.
Proof.
  unfold SFltb, SFcompare.
  change (Pos.compare_cont Eq m1 m2) with (Pos.compare m1 m2).
  destruct s1, s2; try (split; [intros; exact I | reflexivity]);
    try (split; [discriminate | contradiction]);
    destruct (Z.compare_spec e1 e2) as [He|He|He];
    destruct (Pos.compare_spec m1 m2) as [Hm|Hm|Hm]; cbn;
    split; intros Hx; try discriminate; try reflexivity; try lia.
Qed.

Lemma SFltb_trans (x y z : spec_float) :
  SFltb x y = true -> SFltb y z = true -> SFltb x z = true.
Proof.
  intros Hxy Hyz.
  destruct x as [sx|sx| |sx mx ex], y as [sy|sy| |sy my ey],
           z as [sz|sz| |sz mz ez];
    try (apply SFltb_finite_spec in Hxy; apply SFltb_finite_spec in Hyz;
         apply SFltb_finite_spec;
         destruct sx, sy, sz; try contradiction; try exact I; lia);
    repeat match goal with s : bool |- _ => destruct s end;
    try discriminate Hxy; try discriminate Hyz; reflexivity.
Qed.

(** C1.  On binary64, for every aggregate state (count [n], mean [m],
    min [lo], max [hi], sum of squared differences [s]) and every
    non-NaN [x], [AddMeasurement x] performs exactly the Welford step,
    written here with the IEEE operations themselves: the count is
    incremented (as a [uint64_t]; it is [n + 1] below the type's
    maximum), the mean becomes [m' = m + (x - m) / count], the sum
    becomes [s + (x - m) * (x - m')] with the already updated mean [m'],
    the minimum becomes [x] if [x < lo] and stays [lo] otherwise, the
    maximum becomes [x] if [hi < x] and stays [hi] otherwise.  The new
    minimum is one of [lo] and [x] and neither is below it; the new
    maximum is one of [hi] and [x] and neither is above it. *)
Theorem AddMeasurement_is_welford_step :
  forall (n : Z) (m lo hi s x : binary64.double),
    binary64.is_nan x = false ->
    let n' := uint64_incr n in
    let m' :=
      SFadd binary64.prec binary64.emax m
        (SFdiv binary64.prec binary64.emax
           (SFsub binary64.prec binary64.emax x m) (binary64.of_Z n')) in
    let after :=
      Method.exec (AddMeasurement x)
        {| average_ := m; min_ := lo; max_ := hi;
           sum_of_square_diff_from_mean_ := s; count_ := n |} in
    (count_ after = n' /\ ((0 <= n < UINT64_MODULUS - 1)%Z -> n' = (n + 1)%Z)) /\
    average_ after = m' /\
    sum_of_square_diff_from_mean_ after
    = SFadd binary64.prec binary64.emax s
        (SFmul binary64.prec binary64.emax
           (SFsub binary64.prec binary64.emax x m)
           (SFsub binary64.prec binary64.emax x m')) /\
    (min_ after = (if SFltb x lo then x else lo) /\
     (min_ after = lo \/ min_ after = x) /\
     SFltb lo (min_ after) = false /\ SFltb x (min_ after) = false) /\
    (max_ after = (if SFltb hi x then x else hi) /\
     (max_ after = hi \/ max_ after = x) /\
     SFltb (max_ after) hi = false /\ SFltb (max_ after) x = false).
Proof.
  intros n m lo hi s x Hx n' m' after.
  assert (E : after
              = {| average_ := m';
                   min_ := if SFltb x lo then x else lo;
                   max_ := if SFltb hi x then x else hi;
                   sum_of_square_diff_from_mean_ :=
                     SFadd binary64.prec binary64.emax s
                       (SFmul binary64.prec binary64.emax
                          (SFsub binary64.prec binary64.emax x m)
                          (SFsub binary64.prec binary64.emax x m'));
                   count_ := n' |}).
  { subst after. unfold AddMeasurement.
    change (isnan x) with (binary64.is_nan x). rewrite Hx. reflexivity. }
  rewrite E. cbn [count_ average_ min_ max_ sum_of_square_diff_from_mean_].
  split; [split; [reflexivity | apply uint64_incr_small]|].
  split; [reflexivity|]. split; [reflexivity|]. split.
  - split; [reflexivity|]. destruct (SFltb x lo) eqn:Hlt.
    + split; [right; reflexivity|]. split; [|apply SFltb_irrefl].
      destruct (SFltb lo x) eqn:Hgt; [|reflexivity].
      rewrite <- (SFltb_irrefl x). symmetry. exact (SFltb_trans _ _ _ Hlt Hgt).
    + split; [left; reflexivity|]. split; [apply SFltb_irrefl | exact Hlt].
  - split; [reflexivity|]. destruct (SFltb hi x) eqn:Hlt.
    + split; [right; reflexivity|]. split; [|apply SFltb_irrefl].
      destruct (SFltb x hi) eqn:Hgt; [|reflexivity].
      rewrite <- (SFltb_irrefl x). symmetry. exact (SFltb_trans _ _ _ Hgt Hlt).
    + split; [left; reflexivity|]. split; [apply SFltb_irrefl | exact Hlt].
Qed.

(** a measurement below the minimum, and one above the maximum, on the
    state reached by the measurements 4 and 6 *)
Lemma AddMeasurement_is_welford_step_witness :
  Method.exec (AddMeasurement (binary64.of_Z 2))
    {| average_ := binary64.of_Z 5; min_ := binary64.of_Z 4; max_ := binary64.of_Z 6;
       sum_of_square_diff_from_mean_ := binary64.of_Z 2; count_ := 2 |}
  = {| average_ := binary64.of_Z 4; min_ := binary64.of_Z 2; max_ := binary64.of_Z 6;
       sum_of_square_diff_from_mean_ := binary64.of_Z 8; count_ := 3 |}
  /\
  Method.exec (AddMeasurement (binary64.of_Z 11))
    {| average_ := binary64.of_Z 5; min_ := binary64.of_Z 4; max_ := binary64.of_Z 6;
       sum_of_square_diff_from_mean_ := binary64.of_Z 2; count_ := 2 |}
  = {| average_ := binary64.of_Z 7; min_ := binary64.of_Z 4; max_ := binary64.of_Z 11;
       sum_of_square_diff_from_mean_ := binary64.of_Z 26; count_ := 3 |}.
Proof.
  pose proof (@AddMeasurement_is_welford_step 2 (binary64.of_Z 5) (binary64.of_Z 4)
                (binary64.of_Z 6) (binary64.of_Z 2) (binary64.of_Z 2) eq_refl)
    as [[Hc _] [Ha [Hs [[Hlo _] [Hhi _]]]]].
  pose proof (@AddMeasurement_is_welford_step 2 (binary64.of_Z 5) (binary64.of_Z 4)
                (binary64.of_Z 6) (binary64.of_Z 2) (binary64.of_Z 11) eq_refl)
    as [[Hc' _] [Ha' [Hs' [[Hlo' _] [Hhi' _]]]]].
  cbv zeta in *.
  split.
  - destruct (Method.exec (AddMeasurement (binary64.of_Z 2)) _) as [a lo hi q c].
    cbn [count_ average_ min_ max_ sum_of_square_diff_from_mean_] in *.
    rewrite Hc, Ha, Hs, Hlo, Hhi. vm_compute. reflexivity.
  - destruct (Method.exec (AddMeasurement (binary64.of_Z 11)) _) as [a lo hi q c].
    cbn [count_ average_ min_ max_ sum_of_square_diff_from_mean_] in *.
    rewrite Hc', Ha', Hs', Hlo', Hhi'. vm_compute. reflexivity.
Defined.

(** X4.  On binary64, after any sequence of measurements from any
    state, every non-NaN measurement [x] of the sequence lies between
    the running extremes: neither [x < min_] nor [max_ < x]; and the
    extremes are themselves measurements of the sequence or the values
    held before. *)
Theorem binary64_extremes_bound_measurements :
  forall (items : list binary64.double)
         (this : MovingAverageStatistics binary64.double) (x : binary64.double),
    In x items ->
    isnan x = false ->
    let after := AddMeasurements items this in
    (SFltb x (min_ after) = false /\ SFltb (max_ after) x = false) /\
    In (min_ after) (min_ this :: items) /\
    In (max_ after) (max_ this :: items).
Proof.
  intros items this x Hin Hx after. subst after. split.
  - exact (@AddMeasurements_bounds_items binary64.double binary64.Scalar_double
             SFltb_irrefl SFltb_trans items this x Hin Hx).
  - apply AddMeasurements_extremes_attained.
Qed.

Lemma binary64_extremes_bound_measurements_witness :
  In (binary64.of_Z 2) [binary64.of_Z 3; binary64.of_Z 2; binary64.of_Z 7] /\
  isnan (binary64.of_Z 2) = false /\
  SFltb (binary64.of_Z 2)
    (min_ (AddMeasurements [binary64.of_Z 3; binary64.of_Z 2; binary64.of_Z 7]
             MovingAverageStatistics_default)) = false.
Proof.
  assert (Hin : In (binary64.of_Z 2)
                  [binary64.of_Z 3; binary64.of_Z 2; binary64.of_Z 7])
    by (right; left; reflexivity).
  split; [exact Hin|]. split; [reflexivity|].
  exact (proj1 (proj1 (binary64_extremes_bound_measurements
                         [binary64.of_Z 3; binary64.of_Z 2; binary64.of_Z 7]
                         MovingAverageStatistics_default (binary64.of_Z 2)
                         Hin eq_refl))).
Defined.

(** X5.  On binary64, measurements never raise the running minimum nor
    lower the running maximum.  Hence, from a reset aggregator, whatever
    is measured, [Max()] never returns a value below
    [std::numeric_limits<double>::min()] (2^-1022) and [Min()] never a
    value above [std::numeric_limits<double>::max()]. *)
Theorem binary64_extremes_monotone :
  forall (items : list binary64.double)
         (this history : MovingAverageStatistics binary64.double),
    (SFltb (min_ this) (min_ (AddMeasurements items this)) = false /\
     SFltb (max_ (AddMeasurements items this)) (max_ this) = false) /\
    (SFltb (Method.result Max (AddMeasurements items (Method.exec Reset history)))
       binary64.DBL_MIN = false /\
     SFltb binary64.DBL_MAX
       (Method.result Min (AddMeasurements items (Method.exec Reset history))) = false).
Proof.
  intros items this history. split.
  - exact (@AddMeasurements_monotone binary64.double binary64.Scalar_double
             SFltb_irrefl SFltb_trans items this).
  - rewrite Reset_exec.
    set (after := AddMeasurements items MovingAverageStatistics_default).
    destruct (@AddMeasurements_monotone binary64.double binary64.Scalar_double
                SFltb_irrefl SFltb_trans items MovingAverageStatistics_default)
      as [Hmin Hmax].
    fold after in Hmin, Hmax.
    unfold Max, Min, Method.result, Method.bind, Method.ret.
    pose proof (GetStatistics_pure after) as Hpure.
    destruct (Z.eq_dec (count_ after) 0) as [Hc|Hc].
    + pose proof (GetStatistics_when_empty after Hc) as Hres.
      unfold Method.result, Method.exec in Hres, Hpure.
      destruct (GetStatistics after) as [r s]. cbn in Hres, Hpure. subst r s.
      split; reflexivity.
    + pose proof (GetStatistics_nonempty after Hc) as Hres.
      unfold Method.result, Method.exec in Hres, Hpure.
      destruct (GetStatistics after) as [r s]. cbn in Hres, Hpure. subst r s.
      cbn [fst max min]. split; [exact Hmax | exact Hmin].
Qed.

(* ================================================================= *)
(** ** Sequences of calls on a collector *)

Section CallSequences.
Context {F : Type} `{Scalar F} {D : Type} `{Hooks F D}.
Import calls.

Lemma on_collected_data_started_ {A} (m : Method.t (MovingAverageStatistics F) A)
  (this : Collector F D) :
  started_ (Method.exec (on_collected_data m) this) = started_ this.
Proof.
  unfold on_collected_data, Method.exec.
  destruct (m (collected_data_ this)) as [a data]. reflexivity.
Qed.

Lemma on_collected_data_collected_data_ {A}
  (m : Method.t (MovingAverageStatistics F) A) (this : Collector F D) :
  collected_data_ (Method.exec (on_collected_data m) this)
  = Method.exec m (collected_data_ this).
Proof.
  unfold on_collected_data, Method.exec.
  destruct (m (collected_data_ this)) as [a data]. reflexivity.
Qed.

Lemma Start_exec_started_ (this : Collector F D) :
  started_ (Method.exec Start this) = true.
Proof.
  destruct (started_ this) eqn:Hs.
  - unfold Method.exec. rewrite (Start_when_started this Hs). exact Hs.
  - unfold Method.exec. rewrite (Start_when_stopped this Hs).
    apply (call_hook_started_ SetupStart (set_started_ true this)).
Qed.

Lemma Stop_exec_started_ (this : Collector F D) :
  started_ (Method.exec Stop this) = false.
Proof.
  destruct (started_ this) eqn:Hs.
  - unfold Method.exec. rewrite (Stop_when_started this Hs). reflexivity.
  - unfold Method.exec. rewrite (Stop_when_stopped this Hs). exact Hs.
Qed.

Lemma run_call_started_ (c : call F) (this : Collector F D) :
  started_ (run_call c this) = last_lifecycle [c] (started_ this).
Proof.
  destruct c; cbn [run_call last_lifecycle].
  - apply Start_exec_started_.
  - apply Stop_exec_started_.
  - apply on_collected_data_started_.
  - apply on_collected_data_started_.
  - apply on_collected_data_started_.
  - reflexivity.
Qed.

(** X8.  For every specialization and every sequence of calls of the
    public methods, [IsStarted()] afterwards tells which of [Start()] and
    [Stop()] was called last (the initial flag if neither was), whatever
    those calls returned; [AcceptData], [ClearCurrentMeasurements],
    [GetStatisticsResults] and [IsStarted] never change it. *)
Theorem IsStarted_after_calls :
  forall (cs : list (call F)) (this : Collector F D),
    Method.result IsStarted (run_calls cs this)
    = last_lifecycle cs (Method.result IsStarted this).
Proof.
  unfold run_calls.
  induction cs as [|c cs IH]; intros this; [reflexivity|].
  cbn [fold_left]. rewrite IH.
  change (Method.result IsStarted (run_call c this)) with (started_ (run_call c this)).
  rewrite run_call_started_.
  change (Method.result IsStarted this) with (started_ this).
  destruct c; reflexivity.
Qed.

(** X9.  The start/stop flag does not gate measurements: after a
    [Stop()] on a started collector, [AcceptData(x)] with a non-NaN [x]
    is recorded (the snapshot counts one sample) although the collector
    stays stopped. *)
Theorem AcceptData_after_Stop_is_recorded :
  forall (this : Collector F D) (x : F),
    started_ this = true ->
    isnan x = false ->
    let after := Method.exec (AcceptData x) (Method.exec Stop this) in
    Method.result IsStarted after = false /\
    sample_count (Method.result GetStatisticsResults after) = 1%Z /\
    collected_data_ after
    = Method.exec (AddMeasurement x) MovingAverageStatistics_default.
Proof.
  intros this x Hs Hx after. subst after.
  assert (Hdata : collected_data_ (Method.exec (AcceptData x) (Method.exec Stop this))
                  = Method.exec (AddMeasurement x) MovingAverageStatistics_default).
  { unfold AcceptData. rewrite on_collected_data_collected_data_.
    unfold Method.exec at 2. rewrite (Stop_when_started this Hs). reflexivity. }
  split; [| split; [| exact Hdata]].
  - change (started_ (Method.exec (AcceptData x) (Method.exec Stop this)) = false).
    unfold AcceptData. rewrite on_collected_data_started_. apply Stop_exec_started_.
  - unfold GetStatisticsResults, on_collected_data, Method.result.
    pose proof (GetStatistics_nonempty
                  (collected_data_ (Method.exec (AcceptData x) (Method.exec Stop this))))
      as Hres.
    unfold Method.result in Hres.
    destruct (GetStatistics
                (collected_data_ (Method.exec (AcceptData x) (Method.exec Stop this))))
      as [r s].
    cbn [fst] in *. rewrite Hres.
    + cbn [sample_count]. rewrite Hdata.
      rewrite (AddMeasurement_accept x _ Hx). reflexivity.
    + rewrite Hdata, (AddMeasurement_accept x _ Hx). cbn. discriminate.
Qed.

End CallSequences.

Lemma AcceptData_after_Stop_is_recorded_witness :
  started_ refusing.started_collector = true /\
  isnan (binary64.of_Z 3) = false /\
  sample_count
    (Method.result GetStatisticsResults
       (Method.exec (AcceptData (binary64.of_Z 3))
          (Method.exec Stop refusing.started_collector))) = 1%Z.
Proof.
  split; [reflexivity|]. split; [reflexivity|].
  exact (proj1 (proj2 (AcceptData_after_Stop_is_recorded
                         refusing.started_collector (binary64.of_Z 3)
                         eq_refl eq_refl))).
Defined.

(* ================================================================= *)
(** ** Conversions to binary64 never produce NaN *)

Lemma iter_pos_invariant {A} (P : A -> Prop) (f : A -> A) :
  (forall x, P x -> P (f x)) -> forall n x, P x -> P (iter_pos f n x).
Proof.
  intros Hf. induction n as [n IH|n IH|]; intros x Hx; cbn; auto.
Qed.

Lemma shr_1_nonneg (mrs : shr_record) :
  (0 <= shr_m mrs)%Z -> (0 <= shr_m (shr_1 mrs))%Z.
Proof.
  destruct mrs as [m r s]. cbn [shr_m]. intros Hm.
  destruct m as [|p|p]; [cbn; lia | destruct p; cbn; lia | lia].
Qed.

Lemma shr_fexp_nonneg (m e : Z) (l : location) :
  (0 <= m)%Z ->
  (0 <= shr_m (fst (shr_fexp binary64.prec binary64.emax m e l)))%Z.
Proof.
  intros Hm. unfold shr_fexp, shr.
  assert (H0 : (0 <= shr_m (shr_record_of_loc m l))%Z)
    by (destruct l as [|[]]; exact Hm).
  destruct (fexp binary64.prec binary64.emax (Zdigits2 m + e) - e)%Z;
    cbn [fst]; try exact H0.
  apply iter_pos_invariant; [exact shr_1_nonneg | exact H0].
Qed.

Lemma round_nearest_even_nonneg (mx : Z) (lx : location) :
  (0 <= mx)%Z -> (0 <= round_nearest_even mx lx)%Z.
Proof.
  intros Hm. destruct lx as [|[]]; cbn; try destruct (Z.even mx); lia.
Qed.

Lemma binary_round_aux_not_nan (sx : bool) (mx ex : Z) (lx : location) :
  (0 <= mx)%Z ->
  binary64.is_nan (binary_round_aux binary64.prec binary64.emax sx mx ex lx) = false.
Proof.
  intros Hm. unfold binary_round_aux.
  pose proof (@shr_fexp_nonneg mx ex lx Hm) as H1.
  destruct (shr_fexp binary64.prec binary64.emax mx ex lx) as [mrs' e'].
  cbn [fst] in H1.
  pose proof (@shr_fexp_nonneg
                (round_nearest_even (shr_m mrs') (loc_of_shr_record mrs')) e' loc_Exact
                (@round_nearest_even_nonneg _ (loc_of_shr_record mrs') H1)) as H2.
  destruct (shr_fexp binary64.prec binary64.emax
              (round_nearest_even (shr_m mrs') (loc_of_shr_record mrs')) e' loc_Exact)
    as [mrs'' e''].
  cbn [fst] in H2.
  destruct (shr_m mrs'') as [|m|m]; [reflexivity | | lia].
  destruct (e'' <=? binary64.emax - binary64.prec)%Z; reflexivity.
Qed.

Lemma of_Z_not_nan (z : Z) : binary64.is_nan (binary64.of_Z z) = false.
Proof.
  unfold binary64.of_Z, binary_normalize, binary_round.
  destruct z as [|m|m]; [reflexivity| |];
    destruct (shl_align m 0
                (fexp binary64.prec binary64.emax (Z.pos (digits2_pos m) + 0)))
      as [mz ez];
    apply binary_round_aux_not_nan; lia.
Qed.

Lemma SFdiv_core_binary_nonneg (m1 m2 : positive) (e1 e2 : Z) :
  (0 <= fst (fst (SFdiv_core_binary binary64.prec binary64.emax
                    (Z.pos m1) e1 (Z.pos m2) e2)))%Z.
Proof.
  unfold SFdiv_core_binary. cbn zeta.
  set (s := (e1 - e2 - _)%Z).
  set (m' := match s with
             | Z.pos _ => Z.shiftl (Z.pos m1) s
             | 0%Z => Z.pos m1
             | Z.neg _ => 0%Z
             end).
  assert (Hm' : (0 <= m')%Z).
  { subst m'. destruct s; try lia. apply Z.shiftl_nonneg. lia. }
  pose proof (Z.div_pos m' (Z.pos m2) Hm' ltac:(lia)) as Hq.
  unfold Z.div in Hq.
  destruct (Z.div_eucl m' (Z.pos m2)) as [q r]. exact Hq.
Qed.

Lemma SFdiv_by_finite_not_nan (x : spec_float) (s : bool) (m : positive) (e : Z) :
  binary64.is_nan x = false ->
  binary64.is_nan (SFdiv binary64.prec binary64.emax x (S754_finite s m e)) = false.
Proof.
  intros Hx. destruct x as [sx|sx| |sx mx ex]; try reflexivity; try discriminate.
  unfold SFdiv.
  pose proof (SFdiv_core_binary_nonneg mx m ex e) as Hq.
  destruct (SFdiv_core_binary binary64.prec binary64.emax (Z.pos mx) ex (Z.pos m) e)
    as [[mz ez] lz].
  apply binary_round_aux_not_nan. exact Hq.
Qed.

Lemma duration_milli_count_not_nan (nanos : Z) :
  isnan (topic_statistics_collector.duration_milli_count (F := binary64.double) nanos)
  = false.
Proof.
  unfold topic_statistics_collector.duration_milli_count.
  cbn [fdiv of_integer isnan binary64.Scalar_double].
  assert (E : binary64.of_Z 1000000 = S754_finite false 8589934592000000 (-33))
    by (vm_compute; reflexivity).
  rewrite E. apply SFdiv_by_finite_not_nan, of_Z_not_nan.
Qed.

(* ================================================================= *)
(** ** Adapters and the lifecycle *)

Section AdapterLifecycle.
Context {F : Type} `{Scalar F}.
Import topic_statistics_collector.
Local Open Scope Z_scope.

(** X10.  A [Stop()] followed by a [Start()] returns a started period
    collector, and a started age collector, to the state of a freshly
    constructed and started one, whatever was measured before; both
    calls return [true]. *)
Theorem adapters_restart_fresh :
  forall (p : ReceivedMessagePeriodCollector F)
         (a : received_message_age.ReceivedMessageAgeCollector F),
    started_ p = true ->
    started_ a = true ->
    (Method.result Stop p = true /\
     Method.result Start (Method.exec Stop p) = true /\
     Method.exec Start (Method.exec Stop p)
     = Method.exec Start (ReceivedMessagePeriodCollector_new F)) /\
    (Method.result Stop a = true /\
     Method.result Start (Method.exec Stop a) = true /\
     Method.exec Start (Method.exec Stop a)
     = Method.exec Start (received_message_age.ReceivedMessageAgeCollector_new F)).
Proof.
  intros p a Hp Ha.
  unfold Method.result, Method.exec.
  rewrite (Stop_when_started p Hp), (Stop_when_started a Ha).
  cbn [fst snd]. rewrite !Start_when_stopped by reflexivity.
  destruct p as [pdata pstarted [plast]], a as [adata astarted []].
  repeat split.
Qed.

(** X11.  [Stop()] clears the measurements but keeps the time of the
    last received message: the first message after a [Stop()] (with no
    [Start()] in between) is measured against the last message before
    it, and that period is recorded on the stopped collector. *)
Theorem period_spans_Stop :
  forall (T : Type) (message : T) (now : Z) (p : ReceivedMessagePeriodCollector F),
    started_ p = true ->
    time_last_message_received_ (derived_ p) <> kUninitializedTime ->
    in_int64 (now - time_last_message_received_ (derived_ p)) = true ->
    OnMessageReceived message now (Method.exec Stop p)
    = Some {| collected_data_ :=
                Method.exec
                  (AddMeasurement
                     (duration_milli_count
                        (now - time_last_message_received_ (derived_ p))))
                  MovingAverageStatistics_default;
              started_ := false;
              derived_ := {| time_last_message_received_ := now |} |}.
Proof.
  intros T message now p Hp Hlast Hrange.
  unfold Method.exec at 1. rewrite (Stop_when_started p Hp). cbn [snd].
  rewrite OnMessageReceived_next; cbn [derived_ collected_data_ started_ snd];
    destruct p as [pdata pstarted [plast]]; cbn in *; [reflexivity | exact Hlast | exact Hrange].
Qed.

(** X12.  A receipt time equal to the sentinel does not only hide one
    period: on an adapter with baseline [last], a message received at
    time 0 is recorded as the period [0 - last], and the adapter is
    uninitialised again, so the message after it records nothing and
    becomes the new baseline. *)
Theorem period_zero_time_rearms :
  forall (T : Type) (m1 m2 : T) (now : Z) (p : ReceivedMessagePeriodCollector F),
    time_last_message_received_ (derived_ p) <> kUninitializedTime ->
    in_int64 (0 - time_last_message_received_ (derived_ p)) = true ->
    OnMessagesReceived [(m1, 0); (m2, now)] p
    = Some {| collected_data_ :=
                Method.exec
                  (AddMeasurement
                     (duration_milli_count
                        (0 - time_last_message_received_ (derived_ p))))
                  (collected_data_ p);
              started_ := started_ p;
              derived_ := {| time_last_message_received_ := now |} |}.
Proof.
  intros T m1 m2 now p Hlast Hrange.
  cbn [OnMessagesReceived].
  rewrite (OnMessageReceived_next m1 0 p Hlast Hrange).
  rewrite OnMessageReceived_first by reflexivity.
  reflexivity.
Qed.

End AdapterLifecycle.

Lemma adapters_restart_fresh_witness :
  started_ period_fixture.started = true /\
  Method.exec Start (Method.exec Stop period_fixture.started)
  = Method.exec Start
      (topic_statistics_collector.ReceivedMessagePeriodCollector_new binary64.double).
Proof.
  split; [reflexivity|].
  exact (proj2 (proj2 (proj1
           (adapters_restart_fresh period_fixture.started
              (set_started_ true
                 (received_message_age.ReceivedMessageAgeCollector_new binary64.double))
              eq_refl eq_refl)))).
Defined.

Lemma period_spans_Stop_witness :
  topic_statistics_collector.OnMessageReceived tt 1050000%Z
    (Method.exec Stop
       {| collected_data_ :=
            AddMeasurements [binary64.of_Z 4] MovingAverageStatistics_default;
          started_ := true;
          derived_ :=
            {| topic_statistics_collector.time_last_message_received_ := 1000000 |} |})
  = Some {| collected_data_ :=
              AddMeasurements [S754_finite false 7205759403792794 (-57)]
                MovingAverageStatistics_default;
            started_ := false;
            derived_ :=
              {| topic_statistics_collector.time_last_message_received_ := 1050000 |} |}.
Proof.
  refine (@period_spans_Stop binary64.double _ unit tt 1050000%Z
            {| collected_data_ :=
                 AddMeasurements [binary64.of_Z 4] MovingAverageStatistics_default;
               started_ := true;
               derived_ :=
                 {| topic_statistics_collector.time_last_message_received_ := 1000000 |} |}
            eq_refl _ eq_refl).
  cbn. discriminate.
Defined.

Lemma period_zero_time_rearms_witness :
  option_map (fun this => Method.result GetCount (collected_data_ this))
    (topic_statistics_collector.OnMessagesReceived [(tt, 0%Z); (tt, 1050000%Z)]
       {| collected_data_ := MovingAverageStatistics_default (F := binary64.double);
          started_ := true;
          derived_ :=
            {| topic_statistics_collector.time_last_message_received_ := 1000000 |} |})
  = Some 1%Z.
Proof.
  rewrite (@period_zero_time_rearms binary64.double _ unit tt tt 1050000%Z
             {| collected_data_ := MovingAverageStatistics_default;
                started_ := true;
                derived_ :=
                  {| topic_statistics_collector.time_last_message_received_ := 1000000 |} |}).
  - reflexivity.
  - cbn. discriminate.
  - reflexivity.
Defined.

(* ================================================================= *)
(** ** Properties of the age adapter *)

Section AgeProperties.
Import generate_statistics_message topic_statistics_collector.
Import received_message_age age_reference.
Local Open Scope Z_scope.

Lemma TimeStamp_value_header {M : Type} `{MessageType M} (read_stamp : M -> Time)
  (m : M) :
  header_stamp = Some read_stamp ->
  is_Time (read_stamp m) ->
  TimeStamp_value m = Some (true, stamp_nanos (read_stamp m)).
Proof.
  intros Hheader [Hsec Hnanosec].
  unfold TimeStamp_value, RCL_S_TO_NS, int64_mul, int64_add, stamp_nanos.
  rewrite Hheader. cbn zeta.
  assert (H1 : in_int64 (sec (read_stamp m) * (1000 * 1000 * 1000)) = true).
  { unfold in_int64, INT64_MIN, INT64_MAX.
    apply andb_true_intro; split; apply Z.leb_le; lia. }
  rewrite H1.
  assert (H2 : in_int64 (sec (read_stamp m) * (1000 * 1000 * 1000)
                         + nanosec (read_stamp m)) = true).
  { unfold in_int64, INT64_MIN, INT64_MAX.
    apply andb_true_intro; split; apply Z.leb_le; lia. }
  rewrite H2. reflexivity.
Qed.

(** X13.  For a message type with a header, [TimeStamp<M>::value] is
    defined for every stamp within the field types ([int32] seconds,
    [uint32] nanoseconds): neither the multiplication by [10^9] nor the
    sum overflows [int64_t], and the result is
    [(true, sec * 10^9 + nanosec)]. *)
Theorem TimeStamp_value_never_overflows :
  forall (M : Type) (MT : MessageType M) (read_stamp : M -> Time) (m : M),
    header_stamp = Some read_stamp ->
    is_Time (read_stamp m) ->
    TimeStamp_value m
    = Some (true, sec (read_stamp m) * 1000000000 + nanosec (read_stamp m)) /\
    INT64_MIN <= sec (read_stamp m) * 1000000000 + nanosec (read_stamp m)
      <= INT64_MAX.
Proof.
  intros M MT read_stamp m Hheader Htime. split.
  - exact (@TimeStamp_value_header M MT read_stamp m Hheader Htime).
  - destruct Htime as [Hsec Hnanosec]. unfold INT64_MIN, INT64_MAX. lia.
Qed.

(** X14.  On normalised stamps (nanoseconds below [10^9]) the
    conversion of [TimeStamp<M>::value] loses nothing: seconds and
    nanoseconds are the quotient and remainder of the result by [10^9],
    two messages with the same result carry the same stamp, and only the
    stamp [(0, 0)] gives the value 0 that the adapter takes for "no
    timestamp". *)
Theorem TimeStamp_value_round_trip :
  forall (M : Type) (MT : MessageType M) (read_stamp : M -> Time) (m m' : M),
    header_stamp = Some read_stamp ->
    is_Time (read_stamp m) -> nanosec (read_stamp m) < 1000000000 ->
    is_Time (read_stamp m') -> nanosec (read_stamp m') < 1000000000 ->
    (forall nanos, TimeStamp_value m = Some (true, nanos) ->
       sec (read_stamp m) = nanos / 1000000000 /\
       nanosec (read_stamp m) = nanos mod 1000000000) /\
    (TimeStamp_value m = TimeStamp_value m' -> read_stamp m = read_stamp m') /\
    (TimeStamp_value m = Some (true, 0) <->
       sec (read_stamp m) = 0 /\ nanosec (read_stamp m) = 0).
Proof.
  intros M MT read_stamp m m' Hheader Hm Hnorm Hm' Hnorm'.
  rewrite (@TimeStamp_value_header M MT read_stamp m Hheader Hm).
  rewrite (@TimeStamp_value_header M MT read_stamp m' Hheader Hm').
  destruct Hm as [_ Hnano], Hm' as [_ Hnano'].
  destruct (read_stamp m) as [ssec snano], (read_stamp m') as [tsec tnano].
  unfold stamp_nanos. cbn [sec nanosec] in *.
  assert (Hdiv : forall a b, 0 <= b < 1000000000 ->
                   (a * 1000000000 + b) / 1000000000 = a /\
                   (a * 1000000000 + b) mod 1000000000 = b).
  { intros a b Hb. split.
    - rewrite Z.div_add_l by lia. rewrite Z.div_small by lia. lia.
    - rewrite Z.add_comm, Z.mod_add by lia. apply Z.mod_small. lia. }
  destruct (Hdiv ssec snano ltac:(lia)) as [E1 E2].
  destruct (Hdiv tsec tnano ltac:(lia)) as [E3 E4].
  split; [| split].
  - intros nanos E. injection E as <-. rewrite E1, E2. split; reflexivity.
  - intros E. injection E as E. rewrite E in E1, E2. f_equal; congruence.
  - split.
    + intros E. injection E as E. rewrite E in E1, E2. cbn in E1, E2.
      split; congruence.
    + intros [-> ->]. reflexivity.
Qed.

End AgeProperties.

Lemma TimeStamp_value_never_overflows_witness :
  received_message_age.TimeStamp_value
    {| received_message_age.header :=
         {| generate_statistics_message.sec := - 2 ^ 31;
            generate_statistics_message.nanosec := 2 ^ 32 - 1 |};
       received_message_age.payload := 0 |}
  = Some (true, (- 2 ^ 31 * 1000000000 + (2 ^ 32 - 1))%Z).
Proof.
  refine (proj1 (@TimeStamp_value_never_overflows _ _ received_message_age.header
                   {| received_message_age.header :=
                        {| generate_statistics_message.sec := - 2 ^ 31;
                           generate_statistics_message.nanosec := 2 ^ 32 - 1 |};
                      received_message_age.payload := 0 |} eq_refl _)).
  unfold received_message_age.is_Time. cbn. lia.
Defined.

Lemma TimeStamp_value_round_trip_witness :
  received_message_age.TimeStamp_value
    {| received_message_age.header :=
         {| generate_statistics_message.sec := 0;
            generate_statistics_message.nanosec := 0 |};
       received_message_age.payload := 7 |}
  = Some (true, 0%Z)
  <-> (0 = 0 /\ 0 = 0)%Z.
Proof.
  refine (proj2 (proj2 (@TimeStamp_value_round_trip _ _ received_message_age.header
                          {| received_message_age.header :=
                               {| generate_statistics_message.sec := 0;
                                  generate_statistics_message.nanosec := 0 |};
                             received_message_age.payload := 7 |}
                          {| received_message_age.header :=
                               {| generate_statistics_message.sec := -3;
                                  generate_statistics_message.nanosec := 250 |};
                             received_message_age.payload := 0 |}
                          eq_refl _ _ _ _)));
    unfold received_message_age.is_Time; cbn; lia.
Defined.

Section AgeSequences.
Context {F : Type} `{Scalar F} {T : Type} `{received_message_age.MessageType T}.
Import generate_statistics_message topic_statistics_collector.
Import received_message_age age_reference.
Local Open Scope Z_scope.

Lemma AcceptData_exec {D : Type} (x : F) (this : Collector F D) :
  Method.exec (AcceptData x) this
  = set_collected_data_ (Method.exec (AddMeasurement x) (collected_data_ this)) this.
Proof.
  unfold AcceptData, on_collected_data, Method.exec.
  destruct (AddMeasurement x (collected_data_ this)) as [u data]. reflexivity.
Qed.

Lemma age_OnMessagesReceived_no_header (events : list (T * Z)) :
  header_stamp = None ->
  forall this : ReceivedMessageAgeCollector F,
    received_message_age.OnMessagesReceived events this = Some this.
Proof.
  intros Hheader.
  induction events as [|[message now] events IH]; intros this; [reflexivity|].
  cbn [received_message_age.OnMessagesReceived].
  unfold received_message_age.OnMessageReceived, TimeStamp_value.
  rewrite Hheader. cbn [fst]. apply IH.
Qed.

Lemma age_OnMessagesReceived_header (read_stamp : T -> Time)
  (events : list (T * Z)) :
  header_stamp = Some read_stamp ->
  Forall (fun event =>
            is_Time (read_stamp (fst event)) /\
            (has_valid_times (read_stamp (fst event), snd event) = true ->
             in_int64 (snd event - stamp_nanos (read_stamp (fst event))) = true))
    events ->
  forall this : ReceivedMessageAgeCollector F,
    received_message_age.OnMessagesReceived events this
    = Some (set_collected_data_
              (AddMeasurements
                 (map duration_milli_count
                    (expected_ages
                       (map (fun event => (read_stamp (fst event), snd event)) events)))
                 (collected_data_ this))
              this).
Proof.
  intros Hheader.
  induction events as [|[message now] events IH]; intros Hevents this.
  - cbn. destruct this; reflexivity.
  - inversion Hevents as [|? ? [Htime Hrange] Hevents']; subst.
    cbn [fst snd] in Htime, Hrange.
    cbn [received_message_age.OnMessagesReceived].
    unfold received_message_age.OnMessageReceived.
    rewrite (@TimeStamp_value_header T _ read_stamp message Hheader Htime).
    cbn [fst snd map]. unfold expected_ages. cbn [filter].
    unfold has_valid_times at 1. cbn [fst snd].
    unfold has_valid_times in Hrange. cbn [fst snd] in Hrange.
    destruct (negb (stamp_nanos (read_stamp message) =? 0) && negb (now =? 0))
      eqn:Hvalid.
    + unfold int64_sub. rewrite (Hrange eq_refl).
      rewrite AcceptData_exec, (IH Hevents'). cbn [map].
      rewrite AddMeasurements_cons. destruct this; reflexivity.
    + rewrite (IH Hevents'). reflexivity.
Qed.

(** X15.  For a message type without a header stamp, the age adapter
    never records anything: whatever events are delivered, the collector
    is left exactly as it was. *)
Theorem age_without_header_records_nothing :
  forall (events : list (T * Z)) (this : ReceivedMessageAgeCollector F),
    HasHeader T = false ->
    received_message_age.OnMessagesReceived events this = Some this /\
    option_map (fun after => Method.result GetCount (collected_data_ after))
      (received_message_age.OnMessagesReceived events this)
    = Some (Method.result GetCount (collected_data_ this)).
Proof.
  intros events this Hno.
  assert (Hheader : header_stamp = None).
  { unfold HasHeader in Hno. destruct header_stamp; [discriminate|reflexivity]. }
  rewrite (age_OnMessagesReceived_no_header events Hheader this).
  split; reflexivity.
Qed.

(** X16.  For a message type with a header stamp, and stamps within the
    field types: the age adapter feeds, in order, exactly one observation
    [now - stamp] (nanoseconds, converted to milliseconds) for every
    event whose stamp and receipt time are both different from 0, and
    nothing for the others; the lifecycle flag is untouched. *)
Theorem age_with_header_records_ages :
  forall (read_stamp : T -> Time) (events : list (T * Z))
         (this : ReceivedMessageAgeCollector F),
    header_stamp = Some read_stamp ->
    Forall (fun event =>
              is_Time (read_stamp (fst event)) /\
              (has_valid_times (read_stamp (fst event), snd event) = true ->
               in_int64 (snd event - stamp_nanos (read_stamp (fst event))) = true))
      events ->
    received_message_age.OnMessagesReceived events this
    = Some {| collected_data_ :=
                AddMeasurements
                  (map duration_milli_count
                     (expected_ages
                        (map (fun event => (read_stamp (fst event), snd event)) events)))
                  (collected_data_ this);
              started_ := started_ this;
              derived_ := tt |}.
Proof.
  intros read_stamp events this Hheader Hevents.
  rewrite (age_OnMessagesReceived_header Hheader Hevents this).
  destruct this as [data started []]. reflexivity.
Qed.

End AgeSequences.

Lemma age_without_header_records_nothing_witness :
  received_message_age.OnMessagesReceived
    [(tt, 1000000%Z); (tt, 1050000%Z)]
    (received_message_age.ReceivedMessageAgeCollector_new binary64.double)
  = Some (received_message_age.ReceivedMessageAgeCollector_new binary64.double).
Proof.
  exact (proj1 (@age_without_header_records_nothing binary64.double _ unit _
                  [(tt, 1000000%Z); (tt, 1050000%Z)]
                  (received_message_age.ReceivedMessageAgeCollector_new binary64.double)
                  eq_refl)).
Defined.

(** messages stamped 1 ms, 0 (unset) and 2 ms, received at 1.05 ms,
    1.06 ms and 0: only the first has an age, 0.05 ms *)
Lemma age_with_header_records_ages_witness :
  received_message_age.OnMessagesReceived
    [ ({| received_message_age.header :=
            {| generate_statistics_message.sec := 0;
               generate_statistics_message.nanosec := 1000000 |};
          received_message_age.payload := 1 |}, 1050000%Z);
      ({| received_message_age.header :=
            {| generate_statistics_message.sec := 0;
               generate_statistics_message.nanosec := 0 |};
          received_message_age.payload := 2 |}, 1060000%Z);
      ({| received_message_age.header :=
            {| generate_statistics_message.sec := 0;
               generate_statistics_message.nanosec := 2000000 |};
          received_message_age.payload := 3 |}, 0%Z) ]
    (received_message_age.ReceivedMessageAgeCollector_new binary64.double)
  = Some {| collected_data_ :=
              AddMeasurements [S754_finite false 7205759403792794 (-57)]
                MovingAverageStatistics_default;
            started_ := false;
            derived_ := tt |}.
Proof.
  refine (@age_with_header_records_ages binary64.double _
            received_message_age.Stamped _ received_message_age.header
            _ (received_message_age.ReceivedMessageAgeCollector_new binary64.double)
            eq_refl _).
  repeat (constructor;
          [split; [unfold received_message_age.is_Time; cbn; lia
                  | intros _; reflexivity] |]).
  constructor.
Defined.

(* ================================================================= *)
(** ** How many observations the adapters record, on binary64 *)

Section AdapterCounts.
Import generate_statistics_message topic_statistics_collector.
Import received_message_age age_reference period_reference.
Local Open Scope Z_scope.

Lemma periods_from_length (last : Z) (times : list Z) :
  List.length (periods_from last times) = List.length times.
Proof.
  revert last. induction times as [|now times IH]; intros last; [reflexivity|].
  cbn. rewrite IH. reflexivity.
Qed.

Lemma durations_not_nan (nanos : list Z) :
  Forall (fun item : binary64.double => isnan item = false)
    (map duration_milli_count nanos).
Proof.
  apply Forall_forall. intros x Hx. apply in_map_iff in Hx.
  destruct Hx as [d [<- _]]. apply duration_milli_count_not_nan.
Qed.

Lemma count_after_durations (nanos : list Z)
  (data : MovingAverageStatistics binary64.double) :
  is_uint64 (count_ data) ->
  count_ (AddMeasurements (map duration_milli_count nanos) data)
  = (count_ data + Z.of_nat (List.length nanos)) mod UINT64_MODULUS.
Proof.
  intros Hrange.
  rewrite (@AddMeasurements_count _ _ (map duration_milli_count nanos) data Hrange
             (durations_not_nan nanos)).
  rewrite length_map. reflexivity.
Qed.

(** X17.  On binary64 no period is ever dropped as NaN: an
    uninitialised period adapter that receives [n >= 1] events at
    non-zero times has recorded exactly [n - 1] observations more than
    before (modulo [2^64]); with no event, none. *)
Theorem period_adapter_count :
  forall (T : Type) (events : list (T * Z))
         (this : ReceivedMessagePeriodCollector binary64.double),
    time_last_message_received_ (derived_ this) = kUninitializedTime ->
    Forall (fun event => snd event <> 0) events ->
    Forall (fun nanos => in_int64 nanos = true) (expected_periods (map snd events)) ->
    is_uint64 (count_ (collected_data_ this)) ->
    option_map (fun after => Method.result GetCount (collected_data_ after))
      (topic_statistics_collector.OnMessagesReceived events this)
    = Some ((count_ (collected_data_ this)
             + Z.of_nat (List.length events - 1)) mod UINT64_MODULUS).
Proof.
  intros T events this Hlast Hnz Hrange Hcount.
  destruct events as [|[message now] events].
  - cbn. rewrite Z.add_0_r, Z.mod_small by exact Hcount. reflexivity.
  - cbn [map snd expected_periods] in Hrange.
    inversion Hnz as [|? ? Hnow Hnz']; subst. cbn [snd] in Hnow.
    cbn [topic_statistics_collector.OnMessagesReceived].
    rewrite (OnMessageReceived_first message now this Hlast).
    rewrite OnMessagesReceived_initialised; [| exact Hnow | exact Hnz' | exact Hrange].
    cbn [option_map collected_data_ set_time_last_message_received_ set_derived_
         derived_ time_last_message_received_].
    unfold GetCount, Method.result, Method.gets. cbn [fst].
    rewrite count_after_durations by exact Hcount.
    rewrite periods_from_length, length_map.
    replace (List.length ((message, now) :: events) - 1)%nat
      with (List.length events) by (cbn [List.length]; lia).
    reflexivity.
Qed.

(** X18.  On binary64 no age is ever dropped as NaN: for a message type
    with a header, the age adapter has recorded exactly as many
    observations more than before (modulo [2^64]) as there were events
    whose stamp and receipt time are both non-zero. *)
Theorem age_adapter_count :
  forall (T : Type) (MT : MessageType T) (read_stamp : T -> Time)
         (events : list (T * Z))
         (this : ReceivedMessageAgeCollector binary64.double),
    header_stamp = Some read_stamp ->
    Forall (fun event =>
              is_Time (read_stamp (fst event)) /\
              (has_valid_times (read_stamp (fst event), snd event) = true ->
               in_int64 (snd event - stamp_nanos (read_stamp (fst event))) = true))
      events ->
    is_uint64 (count_ (collected_data_ this)) ->
    option_map (fun after => Method.result GetCount (collected_data_ after))
      (received_message_age.OnMessagesReceived events this)
    = Some ((count_ (collected_data_ this)
             + Z.of_nat
                 (List.length
                    (filter has_valid_times
                       (map (fun event => (read_stamp (fst event), snd event)) events))))
            mod UINT64_MODULUS).
Proof.
  intros T MT read_stamp events this Hheader Hevents Hcount.
  rewrite (age_OnMessagesReceived_header Hheader Hevents this).
  cbn [option_map]. unfold GetCount, Method.result, Method.gets. cbn [fst].
  destruct this as [data started []]. cbn [collected_data_ set_collected_data_] in *.
  unfold expected_ages.
  rewrite count_after_durations by exact Hcount.
  rewrite length_map. reflexivity.
Qed.

End AdapterCounts.

Lemma period_adapter_count_witness :
  option_map (fun after => Method.result GetCount (collected_data_ after))
    (topic_statistics_collector.OnMessagesReceived
       [(tt, 1000000%Z); (tt, 1050000%Z); (tt, 1120000%Z)] period_fixture.stopped)
  = Some 2%Z.
Proof.
  refine (@period_adapter_count unit
            [(tt, 1000000%Z); (tt, 1050000%Z); (tt, 1120000%Z)]
            period_fixture.stopped eq_refl _ _ _).
  - repeat (constructor; [cbn; intro; discriminate|]). constructor.
  - repeat (constructor; [reflexivity|]). constructor.
  - unfold is_uint64, UINT64_MODULUS. cbn. lia.
Defined.

Lemma age_adapter_count_witness :
  option_map (fun after => Method.result GetCount (collected_data_ after))
    (received_message_age.OnMessagesReceived
       [ ({| received_message_age.header :=
               {| generate_statistics_message.sec := 0;
                  generate_statistics_message.nanosec := 1000000 |};
             received_message_age.payload := 1 |}, 1050000%Z);
         ({| received_message_age.header :=
               {| generate_statistics_message.sec := 0;
                  generate_statistics_message.nanosec := 0 |};
             received_message_age.payload := 2 |}, 1060000%Z) ]
       (received_message_age.ReceivedMessageAgeCollector_new binary64.double))
  = Some 1%Z.
Proof.
  refine (@age_adapter_count received_message_age.Stamped _
            received_message_age.header _
            (received_message_age.ReceivedMessageAgeCollector_new binary64.double)
            eq_refl _ _).
  - repeat (constructor;
            [split; [unfold received_message_age.is_Time; cbn; lia
                    | intros _; reflexivity] |]).
    constructor.
  - unfold is_uint64, UINT64_MODULUS. cbn. lia.
Defined.

(* ================================================================= *)
(** ** Integers converted to binary64 *)

Lemma digits2_pos_size (m : positive) : digits2_pos m = Pos.size m.
Proof. induction m as [m IH|m IH|]; cbn; congruence. Qed.

Lemma digits2_pos_bound (m : positive) (k : Z) :
  (0 <= k)%Z -> (Z.pos m < 2 ^ k)%Z -> (Z.pos (digits2_pos m) <= k)%Z.
Proof.
  intros Hk Hm. rewrite digits2_pos_size.
  pose proof (Pos.size_le m) as Hle.
  assert (H2 : (2 ^ Z.pos (Pos.size m) <= 2 * Z.pos m)%Z).
  { rewrite <- Pos2Z.inj_pow. change (2 * Z.pos m)%Z with (Z.pos m~0). 
    apply Pos2Z.pos_le_pos. exact Hle. }
  assert (H3 : (2 ^ Z.pos (Pos.size m) < 2 ^ (k + 1))%Z).
  { rewrite Z.pow_add_r by lia. lia. }
  apply Z.pow_lt_mono_r_iff in H3; lia.
Qed.

Lemma iter_xO_digits (m k : positive) :
  digits2_pos (Pos.iter xO m k) = (digits2_pos m + k)%positive.
Proof.
  induction k as [|k IH] using Pos.peano_ind.
  - cbn. lia.
  - rewrite Pos.iter_succ. cbn [digits2_pos]. rewrite IH. lia.
Qed.

Lemma iter_xO_value (m k : positive) :
  Z.pos (Pos.iter xO m k) = (Z.pos m * 2 ^ Z.pos k)%Z.
Proof.
  induction k as [|k IH] using Pos.peano_ind.
  - cbn. lia.
  - rewrite Pos.iter_succ, Pos2Z.inj_xO, IH, Pos2Z.inj_succ, Z.pow_succ_r by lia. lia.
Qed.

(** a mantissa of exactly 53 bits with a small exponent is left alone *)
Lemma binary_round_aux_canonical (s : bool) (mz : positive) (ez : Z) :
  digits2_pos mz = 53%positive -> (-1074 <= ez <= 971)%Z ->
  binary_round_aux binary64.prec binary64.emax s (Z.pos mz) ez loc_Exact
  = S754_finite s mz ez.
Proof.
  intros Hd He.
  assert (Hshr : shr_fexp binary64.prec binary64.emax (Z.pos mz) ez loc_Exact
                 = ({| shr_m := Z.pos mz; shr_r := false; shr_s := false |}, ez)).
  { unfold shr_fexp, fexp, emin, binary64.prec, binary64.emax. cbn [Zdigits2].
    rewrite Hd.
    replace (Z.max (53 + ez - 53) (3 - 1024 - 53) - ez)%Z with 0%Z by lia.
    reflexivity. }
  unfold binary_round_aux. rewrite Hshr. cbn [shr_m loc_of_shr_record round_nearest_even].
  rewrite Hshr. cbn [shr_m].
  unfold binary64.prec, binary64.emax.
  destruct (Z.leb_spec ez (1024 - 53)); [reflexivity | lia].
Qed.

Lemma of_Z_exact (m : positive) :
  (Z.pos m < 2 ^ 53)%Z ->
  exists (mz : positive) (k : Z),
    binary64.of_Z (Z.pos m) = S754_finite false mz (- k) /\
    (0 <= k)%Z /\ Z.pos mz = (Z.pos m * 2 ^ k)%Z.
Proof.
  intros Hm.
  pose proof (@digits2_pos_bound m 53 ltac:(lia) Hm) as Hd.
  unfold binary64.of_Z, binary_normalize, binary_round.
  unfold fexp at 1, emin, binary64.prec, binary64.emax.
  replace (Z.max (Z.pos (digits2_pos m) + 0 - 53) (3 - 1024 - 53))
    with (Z.pos (digits2_pos m) - 53)%Z by lia.
  unfold shl_align.
  destruct (Z.pos (digits2_pos m) - 53 - 0)%Z as [|p|p] eqn:Hdiff; [| lia |].
  - exists m, 0%Z. split; [| split; [lia | lia]].
    apply (@binary_round_aux_canonical false m 0); [lia | lia].
  - exists (Pos.iter xO m p), (Z.pos p). split; [| split; [lia |]].
    + replace (Z.pos (digits2_pos m) - 53)%Z with (- Z.pos p)%Z by lia.
      apply binary_round_aux_canonical; [rewrite iter_xO_digits; lia | lia].
    + apply iter_xO_value.
Qed.

Lemma double_to_R_scaled (mz : positive) (m k : Z) :
  (0 <= k)%Z -> Z.pos mz = (m * 2 ^ k)%Z ->
  double_to_R (S754_finite false mz (- k)) = Some (IZR m).
Proof.
  intros Hk Hmz. cbn [double_to_R cond_Zopp]. f_equal.
  rewrite Hmz, mult_IZR.
  rewrite <- (Z2Nat.id k Hk) at 1 2.
  rewrite <- pow_IZR, pow_powerRZ, Rmult_assoc, <- powerRZ_add by lra.
  rewrite Z.add_opp_diag_r. cbn. lra.
Qed.

Section SampleCountExact.
Import generate_statistics_message.

(** X19.  Counts below [2^53] survive the conversion to [double]
    exactly: the binary64 value of [static_cast<double>(n)] denotes [n],
    so the SAMPLE_COUNT data point of a generated message (the fourth)
    carries the snapshot's sample count without rounding.  The bound is
    sharp: [2^53] and [2^53 + 1] convert to the same double. *)
Theorem sample_count_converts_exactly :
  forall (node_name metric_name unit : string) (window_start window_stop : Time)
         (data : StatisticData binary64.double),
    (0 <= sample_count data < 2 ^ 53)%Z ->
    double_to_R (binary64.of_Z (sample_count data)) = Some (IZR (sample_count data)) /\
    (exists point,
       nth_error
         (statistics (GenerateStatisticMessage node_name metric_name unit
                        window_start window_stop data)) 3 = Some point /\
       data_type point = STATISTICS_DATA_TYPE_SAMPLE_COUNT /\
       double_to_R (generate_statistics_message.data point)
       = Some (IZR (sample_count data))) /\
    binary64.of_Z (2 ^ 53) = binary64.of_Z (2 ^ 53 + 1).
Proof.
  intros node_name metric_name unit window_start window_stop data Hcount.
  assert (Hexact : double_to_R (binary64.of_Z (sample_count data))
                   = Some (IZR (sample_count data))).
  { destruct (sample_count data) as [|m|m]; [reflexivity | | lia].
    destruct (@of_Z_exact m ltac:(lia)) as [mz [k [E [Hk Hmz]]]].
    rewrite E. exact (@double_to_R_scaled mz (Z.pos m) k Hk Hmz). }
  split; [exact Hexact|]. split; [| vm_compute; reflexivity].
  eexists. split; [reflexivity|]. split; [reflexivity|]. exact Hexact.
Qed.

End SampleCountExact.

Lemma sample_count_converts_exactly_witness :
  double_to_R (binary64.of_Z 9007199254740991) = Some (IZR 9007199254740991).
Proof.
  refine (proj1 (@sample_count_converts_exactly EmptyString EmptyString EmptyString
                   {| generate_statistics_message.sec := 0;
                      generate_statistics_message.nanosec := 0 |}
                   {| generate_statistics_message.sec := 0;
                      generate_statistics_message.nanosec := 0 |}
                   {| average := S754_nan; min := S754_nan; max := S754_nan;
                      standard_deviation := S754_nan;
                      sample_count := 9007199254740991 |} _)).
  cbn. lia.
Defined.

(* ================================================================= *)
(** ** Infinite observations *)

Lemma binary_round_aux_shape (mx ex : Z) (lx : location) :
  (0 <= mx)%Z ->
  is_nonnegative_number
    (binary_round_aux binary64.prec binary64.emax false mx ex lx).
Proof.
  intros Hm. unfold binary_round_aux.
  pose proof (@shr_fexp_nonneg mx ex lx Hm) as H1.
  destruct (shr_fexp binary64.prec binary64.emax mx ex lx) as [mrs' e'].
  cbn [fst] in H1.
  pose proof (@shr_fexp_nonneg
                (round_nearest_even (shr_m mrs') (loc_of_shr_record mrs')) e' loc_Exact
                (@round_nearest_even_nonneg _ (loc_of_shr_record mrs') H1)) as H2.
  destruct (shr_fexp binary64.prec binary64.emax
              (round_nearest_even (shr_m mrs') (loc_of_shr_record mrs')) e' loc_Exact)
    as [mrs'' e''].
  cbn [fst] in H2.
  destruct (shr_m mrs'') as [|m|m]; [reflexivity | | lia].
  destruct (e'' <=? binary64.emax - binary64.prec)%Z; reflexivity.
Qed.

Lemma of_Z_shape (z : Z) : (0 <= z)%Z -> is_nonnegative_number (binary64.of_Z z).
Proof.
  intros Hz. unfold binary64.of_Z, binary_normalize, binary_round.
  destruct z as [|m|m]; [reflexivity | | lia].
  destruct (shl_align m 0
              (fexp binary64.prec binary64.emax (Z.pos (digits2_pos m) + 0)))
    as [mz ez].
  apply binary_round_aux_shape. lia.
Qed.

(** the Welford update of the sum, for an infinite item *)
Lemma infinite_step_poisons (s : bool) (prev ssd c : spec_float) :
  is_nonnegative_number c ->
  let d := SFsub binary64.prec binary64.emax (S754_infinity s) prev in
  let avg :=
    SFadd binary64.prec binary64.emax prev (SFdiv binary64.prec binary64.emax d c) in
  SFadd binary64.prec binary64.emax ssd
    (SFmul binary64.prec binary64.emax d
       (SFsub binary64.prec binary64.emax (S754_infinity s) avg)) = S754_nan.
Proof.
  intros Hc. cbn zeta.
  destruct c as [sc|sc| |sc mc ec]; cbn in Hc; try contradiction; subst;
    destruct prev as [sp|sp| |sp mp ep]; try destruct sp; destruct s; cbn;
    destruct ssd as [sq|sq| |sq mq eq]; reflexivity.
Qed.

Lemma AddMeasurements_keeps_nan_sum (items : list binary64.double) :
  forall this : MovingAverageStatistics binary64.double,
    sum_of_square_diff_from_mean_ this = S754_nan ->
    sum_of_square_diff_from_mean_ (AddMeasurements items this) = S754_nan.
Proof.
  induction items as [|item items IH]; intros this Hnan; [exact Hnan|].
  rewrite AddMeasurements_cons. apply IH.
  destruct (isnan item) eqn:Hitem.
  - rewrite (AddMeasurement_reject_exec item this Hitem). exact Hnan.
  - rewrite (AddMeasurement_accept item this Hitem).
    cbn [sum_of_square_diff_from_mean_]. rewrite Hnan. reflexivity.
Qed.

(** X20.  On binary64 an infinite observation is accepted (it is not a
    NaN) and makes the sum of squared differences NaN, from any state;
    whatever is measured afterwards, the standard deviation reported by
    [GetStatistics()] and [StandardDeviation()] stays NaN (until the next
    [Reset()]). *)
Theorem infinite_measurement_poisons_deviation :
  forall (s : bool) (items : list binary64.double)
         (this : MovingAverageStatistics binary64.double),
    let after := AddMeasurements (S754_infinity s :: items) this in
    count_ (Method.exec (AddMeasurement (S754_infinity s)) this)
      = uint64_incr (count_ this) /\
    sum_of_square_diff_from_mean_ after = S754_nan /\
    standard_deviation (Method.result GetStatistics after) = S754_nan /\
    Method.result StandardDeviation after = S754_nan.
Proof.
  intros s items this after. unfold binary64.double in *.
  assert (Hacc : @isnan spec_float _ (S754_infinity s) = false) by reflexivity.
  assert (Hsum : sum_of_square_diff_from_mean_ after = S754_nan).
  { subst after. rewrite AddMeasurements_cons.
    apply AddMeasurements_keeps_nan_sum.
    rewrite (AddMeasurement_accept _ this Hacc).
    cbn [sum_of_square_diff_from_mean_ fadd fsub fmul fdiv of_integer
         binary64.Scalar_double].
    apply infinite_step_poisons, of_Z_shape.
    unfold uint64_incr, UINT64_MODULUS. apply Z.mod_pos_bound. lia. }
  assert (Hsd : standard_deviation (Method.result GetStatistics after) = S754_nan).
  { destruct (Z.eq_dec (count_ after) 0) as [Hc|Hc].
    - rewrite (GetStatistics_when_empty after Hc). reflexivity.
    - rewrite (GetStatistics_nonempty after Hc). cbn [standard_deviation].
      rewrite Hsum.
      cbn [fsqrt fdiv of_integer binary64.Scalar_double].
      destruct (binary64.of_Z (count_ after)); reflexivity. }
  split; [rewrite (AddMeasurement_accept _ this Hacc); reflexivity|].
  split; [exact Hsum|]. split; [exact Hsd|].
  unfold StandardDeviation, Method.result, Method.bind, Method.ret.
  unfold Method.result in Hsd.
  destruct (GetStatistics after) as [r st]. exact Hsd.
Qed.

(* ================================================================= *)
(** ** The period baseline across [Start()] *)

Section PeriodStart.
Context {F : Type} `{Scalar F}.
Import topic_statistics_collector.

(** X21.  [Start()] on a stopped period collector forgets the time of
    the last received message: whatever baseline was left from before,
    the first message after the [Start()] records nothing and only
    becomes the new baseline. *)
Theorem period_Start_resets_baseline :
  forall (T : Type) (message : T) (now : Z) (p : ReceivedMessagePeriodCollector F),
    started_ p = false ->
    Method.result Start p = true /\
    OnMessageReceived message now (Method.exec Start p)
    = Some {| collected_data_ := collected_data_ p;
              started_ := true;
              derived_ := {| time_last_message_received_ := now |} |}.
Proof.
  intros T message now p Hp.
  unfold Method.result, Method.exec.
  rewrite (Start_when_stopped p Hp).
  destruct p as [pdata pstarted [plast]]. split; reflexivity.
Qed.

End PeriodStart.

Lemma period_Start_resets_baseline_witness :
  topic_statistics_collector.OnMessageReceived tt 1050000%Z
    (Method.exec Start
       {| collected_data_ :=
            AddMeasurements [binary64.of_Z 4] MovingAverageStatistics_default;
          started_ := false;
          derived_ :=
            {| topic_statistics_collector.time_last_message_received_ := 1000000 |} |})
  = Some {| collected_data_ :=
              AddMeasurements [binary64.of_Z 4] MovingAverageStatistics_default;
            started_ := true;
            derived_ :=
              {| topic_statistics_collector.time_last_message_received_ := 1050000 |} |}.
Proof.
  exact (proj2 (@period_Start_resets_baseline binary64.double _ unit tt 1050000%Z
                  {| collected_data_ :=
                       AddMeasurements [binary64.of_Z 4] MovingAverageStatistics_default;
                     started_ := false;
                     derived_ :=
                       {| topic_statistics_collector.time_last_message_received_ :=
                            1000000 |} |}
                  eq_refl)).
Defined.

(* ================================================================= *)
(** ** Rounding errors of the running statistics on binary64 *)

Section RoundingErrors.
Import rounding.
Local Open Scope R_scope.
Unset Implicit Arguments.


Lemma p2_pos (e : Z) : 0 < p2 e.
Proof. apply powerRZ_lt. lra. Qed.

Lemma p2_add (a b : Z) : p2 (a + b) = p2 a * p2 b.
Proof. apply powerRZ_add. lra. Qed.


Lemma p2_1 : p2 1 = 2.
Proof. exact (powerRZ_1 2). Qed.

Lemma p2_opp (e : Z) : p2 (- e) = / p2 e.
Proof. apply powerRZ_neg'. Qed.


Lemma p2_succ (e : Z) : p2 (e + 1) = 2 * p2 e.
Proof. rewrite p2_add, p2_1. lra. Qed.


Lemma p2_sub (a b : Z) : p2 (a - b) = p2 a / p2 b.
Proof.
  replace (a - b)%Z with (a + - b)%Z by lia. rewrite p2_add, p2_opp. reflexivity.
Qed.

Lemma p2_IZR (k : Z) : (0 <= k)%Z -> IZR (2 ^ k) = p2 k.
Proof.
  intros Hk. unfold p2. rewrite <- (Z2Nat.id k Hk).
  rewrite <- pow_IZR, pow_powerRZ. reflexivity.
Qed.

Lemma p2_ge_1 (k : Z) : (0 <= k)%Z -> 1 <= p2 k.
Proof.
  intros Hk. rewrite <- p2_IZR by exact Hk. apply IZR_le.
  pose proof (Z.pow_pos_nonneg 2 k ltac:(lia) Hk). lia.
Qed.

Lemma p2_le (a b : Z) : (a <= b)%Z -> p2 a <= p2 b.
Proof.
  intros H. replace b with (a + (b - a))%Z by lia. rewrite p2_add.
  pose proof (p2_pos a). pose proof (p2_ge_1 (b - a) ltac:(lia)). nra.
Qed.

Lemma p2_lt (a b : Z) : (a < b)%Z -> p2 a < p2 b.
Proof.
  intros H. replace b with ((a + 1) + (b - a - 1))%Z by lia.
  rewrite p2_add, p2_succ.
  pose proof (p2_pos a). pose proof (p2_ge_1 (b - a - 1) ltac:(lia)). nra.
Qed.

Lemma p2_le_inv (a b : Z) : p2 a <= p2 b -> (a <= b)%Z.
Proof.
  intros H. destruct (Z_le_gt_dec a b) as [|Hgt]; [assumption|].
  pose proof (p2_lt b a ltac:(lia)). lra.
Qed.

Lemma p2_lt_inv (a b : Z) : p2 a < p2 b -> (a < b)%Z.
Proof.
  intros H. destruct (Z_lt_ge_dec a b) as [|Hge]; [assumption|].
  pose proof (p2_le b a ltac:(lia)). lra.
Qed.

(** *** Shifting right keeps track of the position *)





(** *** Number of binary digits *)




(** *** Rounding an integer with a position to the nearest, ties to even *)



(** *** What [binary_round_aux] computes *)




(** *** From the grid to the properties of a correctly rounded value *)










(** *** The rounding steps of the operations *)


















(** *** Consequences of correct rounding *)

















(** *** Real arithmetic of one step of the running mean *)








(** *** The two-pass statistics of a growing sequence *)

Section TwoPassGrowth.
Import two_pass.








End TwoPassGrowth.

(** *** One step of the running mean on binary64 *)





(** *** Real arithmetic of one step of the sum of squared differences *)





(** *** The aggregate after a sequence of bounded observations *)

Section WelfordOnBinary64.
Import two_pass moving_average_statistics.








End WelfordOnBinary64.

(** *** The standard deviation *)






(** *** The snapshot against the two-pass statistics *)

Section SnapshotOnBinary64.
Import two_pass moving_average_statistics.





End SnapshotOnBinary64.

Section C2OnBinary64.
Import two_pass moving_average_statistics.


End C2OnBinary64.

End RoundingErrors.

Set Implicit Arguments.



